(** * evtxview: a shallow embedding of [evtxview.py]

    The development follows the source file top to bottom: the Python
    primitives the program relies on ([str.find], [str.rfind], slicing,
    [in], list indexing), the wrapper [XmlElement], the lazily decoded
    [EventRecord], the table model [EvtxViewModel], the view [EvtxView]
    and the parts of [MainWindow] that manage tabs and search results.

    Python objects that are mutated in place are modelled by explicit
    state passing; an operation that can raise returns a [result] next to
    the state it leaves behind, so that the writes made before the
    exception are kept, as they are in Python. *)

From Stdlib Require Import ZArith Lia Ascii.
From stdpp Require Import gmap strings list sorting pretty.

Set Warnings "-register-all".
Local Open Scope Z_scope.

(** ** Exceptions and results *)

Inductive PyExc : Type :=
| KeyError
| ValueError
| TypeError
| AttributeError
| IndexError
| ZeroDivisionError
| AssertionError
| OSError
| XMLSyntaxError.

Inductive result (A : Type) : Type :=
| Ok (a : A)
| Raise (e : PyExc).
Arguments Ok {A} a.
Arguments Raise {A} e.

(** A computation over a mutable object of type [S]: it returns a value or
    raises, and in both cases hands back the object as it left it. *)
Definition Py (S A : Type) : Type := S -> result A * S.

Definition ret {S A} (a : A) : Py S A := fun s => (Ok a, s).
Definition raise {S A} (e : PyExc) : Py S A := fun s => (Raise e, s).
Definition bind {S A B} (c : Py S A) (k : A -> Py S B) : Py S B :=
  fun s => match c s with
           | (Ok a, s') => k a s'
           | (Raise e, s') => (Raise e, s')
           end.
Definition get {S} : Py S S := fun s => (Ok s, s).
Definition put {S} (s : S) : Py S unit := fun _ => (Ok tt, s).
Definition lift {S A} (r : result A) : Py S A := fun s => (r, s).

Declare Scope py_scope.
Delimit Scope py_scope with py.
Notation "'let*' x := c 'in' k" := (bind c (fun x => k))
  (at level 10, x name, c at level 100, k at level 200) : py_scope.
Notation "c ;;; k" := (bind c (fun _ => k))
  (at level 100, k at level 200, right associativity) : py_scope.

(** ** Python built-ins used by the program *)

Module Py_str.

(** [s[i:]] for a non-negative [i]. *)
Fixpoint skip (n : nat) (s : string) : string :=
  match n, s with
  | O, _ => s
  | S n', String _ s' => skip n' s'
  | S _, EmptyString => EmptyString
  end.

Definition len (s : string) : Z := Z.of_nat (String.length s).

(** [s[i:]]: a negative start counts from the end and is clipped at 0. *)
Definition slice_from (i : Z) (s : string) : string :=
  let start := if i <? 0 then Z.max 0 (len s + i) else i in
  skip (Z.to_nat start) s.

(** Whether [sub] occurs in [s] at position 0. *)
Fixpoint startswith (sub s : string) : bool :=
  match sub, s with
  | EmptyString, _ => true
  | String a sub', String b s' => Ascii.eqb a b && startswith sub' s'
  | String _ _, EmptyString => false
  end.

(** [s.find(sub)]: lowest index at which [sub] occurs, or -1. *)
Fixpoint find_at (sub s : string) (i : Z) : Z :=
  if startswith sub s then i
  else match s with
       | EmptyString => -1
       | String _ s' => find_at sub s' (i + 1)
       end.
Definition find (sub s : string) : Z := find_at sub s 0.

(** [s.rfind(sub)]: highest index at which [sub] occurs, or -1. *)
Fixpoint rfind_at (sub s : string) (i : Z) : Z :=
  match s with
  | EmptyString => if startswith sub s then i else -1
  | String _ s' =>
      let later := rfind_at sub s' (i + 1) in
      if later =? -1
      then (if startswith sub s then i else -1)
      else later
  end.
Definition rfind (sub s : string) : Z := rfind_at sub s 0.

(** [sub in s] *)
Definition contains (sub s : string) : bool := negb (find sub s =? -1).

End Py_str.

Module Py_list.

(** [l[i]]: negative indices count from the end; out of range raises. *)
Definition getitem {A} (l : list A) (i : Z) : result A :=
  let n := Z.of_nat (length l) in
  let j := if i <? 0 then n + i else i in
  if (j <? 0) || (n <=? j) then Raise IndexError
  else match l !! Z.to_nat j with
       | Some a => Ok a
       | None => Raise IndexError
       end.

(** [l.index(x)]: position of the first occurrence, [ValueError] if none. *)
Fixpoint index_at (x : Z) (l : list Z) (i : Z) : result Z :=
  match l with
  | [] => Raise ValueError
  | y :: l' => if x =? y then Ok i else index_at x l' (i + 1)
  end.
Definition index (x : Z) (l : list Z) : result Z := index_at x l 0.

(** [l.sort()] on integers. *)
Definition sort (l : list Z) : list Z := merge_sort Z.le l.

End Py_list.

(** [d[k]] on a dict. *)
Definition dict_getitem {K V} `{Countable K} (d : gmap K V) (k : K) : result V :=
  match d !! k with
  | Some v => Ok v
  | None => Raise KeyError
  end.

(** ** The lxml element tree, as far as the program reads it

    [etree.XML] returns an element; iterating an element yields its
    children, which are elements, comments or processing instructions.
    The [tag] of an element is a string; the [tag] of a comment or of a
    processing instruction is the factory function, which has no
    [rfind]. *)

Inductive Tag : Type :=
| TagName (s : string)
| TagFactory.

Inductive Node : Type :=
| mkNode (tag : Tag) (attrib : gmap string string) (text : option string)
         (children : list Node).

Definition node_tag (n : Node) : Tag := let 'mkNode t _ _ _ := n in t.
Definition node_attrib (n : Node) : gmap string string := let 'mkNode _ a _ _ := n in a.
Definition node_text (n : Node) : option string := let 'mkNode _ _ t _ := n in t.
Definition node_children (n : Node) : list Node := let 'mkNode _ _ _ c := n in c.

(** ** class XmlElement *)

Inductive XmlElement : Type :=
| mkXmlElement (children : gmap string XmlElement) (node : Node).

Definition xml_children (x : XmlElement) : gmap string XmlElement :=
  let 'mkXmlElement c _ := x in c.
Definition xml_node (x : XmlElement) : Node :=
  let 'mkXmlElement _ n := x in n.

(** The key under which a child is stored: [child.tag[idx+1:]] with
    [idx = child.tag.rfind('}')]. *)
Definition local_name (tag : string) : string :=
  let idx := Py_str.rfind "}" tag in
  Py_str.slice_from (idx + 1) tag.

(** The [for child in root] loop of [__init__], with the constructor that
    is applied to each child as a parameter. *)
Fixpoint XmlElement_children (init : Node -> result XmlElement)
    (cs : list Node) (acc : gmap string XmlElement)
  : result (gmap string XmlElement) :=
  match cs with
  | [] => Ok acc
  | child :: rest =>
      match node_tag child with
      | TagFactory => Raise AttributeError
      | TagName t =>
          match init child with
          | Ok x => XmlElement_children init rest (<[local_name t := x]> acc)
          | Raise e => Raise e
          end
      end
  end.

Fixpoint XmlElement_init (root : Node) : result XmlElement :=
  match root with
  | mkNode _ _ _ cs =>
      match XmlElement_children XmlElement_init cs ∅ with
      | Ok children => Ok (mkXmlElement children root)
      | Raise e => Raise e
      end
  end.

Definition XmlElement_text (x : XmlElement) : option string := node_text (xml_node x).
Definition XmlElement_attrib (x : XmlElement) : gmap string string := node_attrib (xml_node x).
Definition XmlElement_getitem (x : XmlElement) (item : string) : result XmlElement :=
  dict_getitem (xml_children x) item.

(** ** class EventRecord *)

(** A record as the parser hands it over: the dict with the keys
    [event_record_id], [timestamp] and [data]. *)
Record RawRecord : Type := mkRawRecord {
  event_record_id : Z;
  timestamp : string;
  data : string
}.

(** The object state. [xml_calls] is not a field of the class: it lists,
    oldest first, the strings on which this object has called [etree.XML],
    so that statements can speak about how often the payload is parsed. *)
Record EventRecord : Type := mkEventRecord {
  r_id : Z;
  r_timestamp : string;
  r_data : string;
  r_parsed : bool;
  r_attrib : gmap string (option string);
  xml_calls : list string
}.

Definition EventRecord_init (record : RawRecord) : EventRecord :=
  {| r_id := event_record_id record;
     r_timestamp := timestamp record;
     r_data := data record;
     r_parsed := false;
     r_attrib := ∅;
     xml_calls := [] |}.

Definition set_data (d : string) : Py EventRecord unit := fun r =>
  (Ok tt, {| r_id := r_id r; r_timestamp := r_timestamp r; r_data := d;
             r_parsed := r_parsed r; r_attrib := r_attrib r;
             xml_calls := xml_calls r |}).

Definition set_attrib (k : string) (v : option string) : Py EventRecord unit := fun r =>
  (Ok tt, {| r_id := r_id r; r_timestamp := r_timestamp r; r_data := r_data r;
             r_parsed := r_parsed r; r_attrib := <[k := v]> (r_attrib r);
             xml_calls := xml_calls r |}).

Definition log_xml_call (d : string) : Py EventRecord unit := fun r =>
  (Ok tt, {| r_id := r_id r; r_timestamp := r_timestamp r; r_data := r_data r;
             r_parsed := r_parsed r; r_attrib := r_attrib r;
             xml_calls := xml_calls r ++ [d] |}).

(** The payload once the text up to and including the first ["?>"] is cut
    off (lines 82 to 84). *)
Definition remove_pi (d : string) : string :=
  let idx := Py_str.find "?>" d in
  if idx =? -1 then d else Py_str.slice_from (idx + 2) d.

(** The [levels] dict of the [Level] property. *)
Definition levels : gmap Z string :=
  <[0 := "LogAlways"]> (<[1 := "Critical"]> (<[2 := "Error"]>
  (<[3 := "Warning"]> (<[4 := "Informational"]> (<[5 := "Verbose"]> ∅))))).

(** The three convenience fields. *)
Inductive Field : Type := FEventID | FProvider | FLevel.

Section EventRecord.

(** The two library functions the class calls: [lxml.etree.XML] and the
    built-in [int] applied to a string. *)
Variable etree_XML : string -> result Node.
Variable py_int : string -> result Z.

Definition EventRecord_id : Py EventRecord Z := fun r => (Ok (r_id r), r).
Definition EventRecord_timestamp : Py EventRecord string :=
  fun r => (Ok (r_timestamp r), r).
Definition EventRecord_data : Py EventRecord string :=
  fun r => (Ok (r_data r), r).

Definition call_etree_XML (d : string) : Py EventRecord Node :=
  (log_xml_call d ;;; lift (etree_XML d))%py.

Definition attrib_getitem (k : string) : Py EventRecord (option string) :=
  fun r => (dict_getitem (r_attrib r) k, r).

Definition parse_data : Py EventRecord unit :=
  (let* r := get in
   if r_parsed r then ret tt
   else
     let idx := Py_str.find "?>" (r_data r) in
     (if negb (idx =? -1)
      then set_data (Py_str.slice_from (idx + 2) (r_data r))
      else ret tt) ;;;
     let* r1 := get in
     let* tree := call_etree_XML (r_data r1) in
     let* root := lift (XmlElement_init tree) in
     let* sys := lift (XmlElement_getitem root "System") in
     let* e := lift (XmlElement_getitem sys "EventID") in
     set_attrib "EventID" (XmlElement_text e) ;;;
     let* sys := lift (XmlElement_getitem root "System") in
     let* l := lift (XmlElement_getitem sys "Level") in
     set_attrib "Level" (XmlElement_text l) ;;;
     let* sys := lift (XmlElement_getitem root "System") in
     let* p := lift (XmlElement_getitem sys "Provider") in
     let* name := lift (dict_getitem (XmlElement_attrib p) "Name") in
     set_attrib "Provider" (Some name))%py.

Definition EventRecord_EventID : Py EventRecord (option string) :=
  (parse_data ;;; attrib_getitem "EventID")%py.

Definition EventRecord_Provider : Py EventRecord (option string) :=
  (parse_data ;;; attrib_getitem "Provider")%py.

(** [int(v)] for a value that is a string or [None]. *)
Definition int_of (v : option string) : result Z :=
  match v with
  | Some s => py_int s
  | None => Raise TypeError
  end.

Definition EventRecord_Level : Py EventRecord string :=
  (parse_data ;;;
   let* v := attrib_getitem "Level" in
   let* level_id := lift (int_of v) in
   lift (dict_getitem levels level_id))%py.

(** Reading one of the three convenience properties; [Level] yields a
    string, the other two what the tree held. *)
Definition read_field (f : Field) : Py EventRecord (option string) :=
  match f with
  | FEventID => EventRecord_EventID
  | FProvider => EventRecord_Provider
  | FLevel => (let* s := EventRecord_Level in ret (Some s))%py
  end.

End EventRecord.

(** ** class EvtxViewModel *)

(** What a cell of the table can hold. *)
Inductive Cell : Type :=
| CInt (z : Z)
| CStr (s : string)
| CNone
| CBrush
| QVariant_invalid.

Definition cell_of (v : option string) : Cell :=
  match v with
  | Some s => CStr s
  | None => CNone
  end.

(** The entries of [__columns], named by their header. *)
Inductive Column : Type :=
| ColID | ColTimeCreated | ColProvider | ColEventID | ColLevel | ColData.

Definition column_name (c : Column) : string :=
  match c with
  | ColID => "ID"
  | ColTimeCreated => "TimeCreated"
  | ColProvider => "Provider"
  | ColEventID => "EventID"
  | ColLevel => "Level"
  | ColData => "Data"
  end.

Definition columns : list Column :=
  [ColID; ColTimeCreated; ColProvider; ColEventID; ColLevel; ColData].

Inductive Role : Type := DisplayRole | BackgroundRole | OtherRole.

Record EvtxViewModel : Type := mkEvtxViewModel {
  m_filename : string;
  m_chunks : Z;
  m_records : gmap Z EventRecord;
  m_record_ids : list Z;
  m_highlighted_row : option Z
}.

Definition set_records (recs : gmap Z EventRecord) (m : EvtxViewModel) : EvtxViewModel :=
  {| m_filename := m_filename m; m_chunks := m_chunks m; m_records := recs;
     m_record_ids := m_record_ids m; m_highlighted_row := m_highlighted_row m |}.

Definition set_record_ids (ids : list Z) (m : EvtxViewModel) : EvtxViewModel :=
  {| m_filename := m_filename m; m_chunks := m_chunks m; m_records := m_records m;
     m_record_ids := ids; m_highlighted_row := m_highlighted_row m |}.

(** [set_highlighted_row]: the [dataChanged] signals it emits only ask the
    view to repaint and leave the model as it is. *)
Definition set_highlighted_row (row : option Z) (m : EvtxViewModel) : EvtxViewModel :=
  {| m_filename := m_filename m; m_chunks := m_chunks m; m_records := m_records m;
     m_record_ids := m_record_ids m; m_highlighted_row := row |}.

Definition remove_highlight (m : EvtxViewModel) : EvtxViewModel :=
  set_highlighted_row None m.

(** One turn of the loop of [load_data]. *)
Definition load_record (m : EvtxViewModel) (record : RawRecord) : EvtxViewModel :=
  let m1 := set_records
              (<[event_record_id record := EventRecord_init record]> (m_records m)) m in
  set_record_ids (m_record_ids m1 ++ [event_record_id record]) m1.

(** [load_data], given what [self.__parser.records()] yields. *)
Definition load_data (parsed : list RawRecord) (m : EvtxViewModel) : EvtxViewModel :=
  let m1 := foldl load_record m parsed in
  set_record_ids (Py_list.sort (m_record_ids m1)) m1.

(** Diagnostics. Neither [load_data] nor any other method of the class
    records one: no attribute holds them, nothing is printed and nothing
    is raised when an id comes a second time. What a load reports about
    its input is therefore the empty list. *)
Inductive Diagnostic : Type :=
| DuplicateRecordId (record_id : Z).

Definition load_diagnostics (parsed : list RawRecord) : list Diagnostic := [].

(** The object as [__init__] has it just before it calls [load_data]. *)
Definition EvtxViewModel_new (filename : string) : EvtxViewModel :=
  {| m_filename := filename; m_chunks := 0; m_records := ∅;
     m_record_ids := []; m_highlighted_row := None |}.

Definition rowCount (m : EvtxViewModel) : Z := Z.of_nat (length (m_record_ids m)).
Definition columnCount (m : EvtxViewModel) : Z := Z.of_nat (length columns).

(** [QModelIndex.isValid] for an index made by [createIndex(row, column)]. *)
Definition index_isValid (row column : Z) : bool := (0 <=? row) && (0 <=? column).

(** Run a computation on the record object stored under [rid]. *)
Definition with_record {A} (rid : Z) (c : Py EventRecord A) : Py EvtxViewModel A :=
  fun m =>
    match m_records m !! rid with
    | None => (Raise KeyError, m)
    | Some r => let '(a, r') := c r in
                (a, set_records (<[rid := r']> (m_records m)) m)
    end.

(** [get_records]: the record objects in the order of [__record_ids]. *)
Fixpoint lookup_all (recs : gmap Z EventRecord) (ids : list Z) : result (list EventRecord) :=
  match ids with
  | [] => Ok []
  | rid :: rest =>
      match dict_getitem recs rid with
      | Raise e => Raise e
      | Ok r => match lookup_all recs rest with
                | Raise e => Raise e
                | Ok rs => Ok (r :: rs)
                end
      end
  end.

Definition get_records (m : EvtxViewModel) : result (list EventRecord) :=
  lookup_all (m_records m) (m_record_ids m).

(** The record shown in a row: [__record_ids[row]], then [__records] at
    that id (lines 160 to 162, and again 231 to 233). *)
Definition record_at_row (m : EvtxViewModel) (row : Z) : result EventRecord :=
  match Py_list.getitem (m_record_ids m) row with
  | Raise e => Raise e
  | Ok record_id => dict_getitem (m_records m) record_id
  end.

Section EvtxViewModel.

Variable etree_XML : string -> result Node.
Variable py_int : string -> result Z.

Definition column_get (c : Column) : Py EventRecord Cell :=
  match c with
  | ColID => (let* i := EventRecord_id in ret (CInt i))%py
  | ColTimeCreated => (let* t := EventRecord_timestamp in ret (CStr t))%py
  | ColProvider =>
      (let* p := EventRecord_Provider etree_XML in ret (cell_of p))%py
  | ColEventID =>
      (let* e := EventRecord_EventID etree_XML in ret (cell_of e))%py
  | ColLevel =>
      (let* l := EventRecord_Level etree_XML py_int in ret (CStr l))%py
  | ColData => (let* d := EventRecord_data in ret (CStr d))%py
  end.

Definition EvtxViewModel_data (row column : Z) (role : Role)
  : Py EvtxViewModel Cell :=
  if negb (index_isValid row column) then ret QVariant_invalid
  else match role with
       | DisplayRole =>
           (let* m := get in
            let* record_id := lift (Py_list.getitem (m_record_ids m) row) in
            let* _ := lift (dict_getitem (m_records m) record_id) in
            let* col := lift (Py_list.getitem columns column) in
            with_record record_id (column_get col))%py
       | BackgroundRole =>
           (let* m := get in
            if decide (Some row = m_highlighted_row m)
            then ret CBrush else ret QVariant_invalid)%py
       | OtherRole => ret QVariant_invalid
       end.

(** [text in v] for a value that is a string or [None]. *)
Definition py_in (text : string) (v : option string) : result bool :=
  match v with
  | Some s => Ok (Py_str.contains text s)
  | None => Raise TypeError
  end.

(** The search loop of [action_search] (lines 330 to 336): the condition
    of the [if], the body of the [for], and the loop. The list that
    [get_records] returns holds references to the objects stored in
    [__records]; each is named here by the key it is stored under. *)
Definition search_condition (text : string) (checked : bool) : Py EventRecord bool :=
  (let* p := EventRecord_Provider etree_XML in
   let* in_provider := lift (py_in text p) in
   if in_provider then ret true
   else
     let* e := EventRecord_EventID etree_XML in
     let* in_event_id := lift (py_in text e) in
     if in_event_id then ret true
     else if checked
          then let* d := EventRecord_data in ret (Py_str.contains text d)
          else ret false)%py.

Definition search_visit (text : string) (checked : bool)
    (found : list (Z * string)) : Py EventRecord (list (Z * string)) :=
  (let* hit := search_condition text checked in
   if hit
   then let* i := EventRecord_id in
        let* t := EventRecord_timestamp in
        ret (found ++ [(i, t)])
   else ret found)%py.

Fixpoint search_loop (text : string) (checked : bool) (refs : list Z)
    (found : list (Z * string)) : Py EvtxViewModel (list (Z * string)) :=
  match refs with
  | [] => ret found
  | rid :: rest =>
      (let* found' := with_record rid (search_visit text checked found) in
       search_loop text checked rest found')%py
  end.

Definition search_records (text : string) (checked : bool)
  : Py EvtxViewModel (list (Z * string)) :=
  (let* m := get in
   let* _ := lift (get_records m) in
   search_loop text checked (m_record_ids m) [])%py.

End EvtxViewModel.

(** ** class EvtxView *)

Record EvtxView : Type := mkEvtxView {
  v_model : EvtxViewModel;
  v_highlighted_row : option Z;
  v_current_index : option (Z * Z)
}.

Definition get_evtxViewModel (v : EvtxView) : EvtxViewModel := v_model v.

(** [scroll_to_record_id]: returns the line it printed, if any, next to
    the view as it leaves it. *)
Definition scroll_to_record_id (record_id : Z) (v : EvtxView) : option string * EvtxView :=
  let model := get_evtxViewModel v in
  match Py_list.index record_id (m_record_ids model) with
  | Raise _ =>
      (Some ("Record ID " +:+ pretty record_id +:+ " not found"), v)
  | Ok row =>
      let model' := set_highlighted_row (Some row) model in
      if index_isValid row 0
      then (None, {| v_model := model'; v_highlighted_row := v_highlighted_row v;
                     v_current_index := Some (row, 0) |})
      else (None, {| v_model := model'; v_highlighted_row := v_highlighted_row v;
                     v_current_index := v_current_index v |})
  end.

(** The loop of [on_table_clicked] that looks for the column named
    ["Data"]: the position of the first such entry, if there is one. *)
Fixpoint data_column_index_from (cols : list Column) (i : Z) : option Z :=
  match cols with
  | [] => None
  | c :: rest =>
      if decide (column_name c = "Data") then Some i
      else data_column_index_from rest (i + 1)
  end.

(** What a double click shows. *)
Record Shown : Type := mkShown {
  printed : string;        (* the line written by [print] *)
  box_title : string;      (* the title of the message box *)
  box_text : string        (* its text *)
}.

(** [on_table_clicked] for a click on the cell at [row] and [column]: it
    changes nothing and returns what it shows, if anything. *)
Definition on_table_clicked (row column : Z) (v : EvtxView) : result (option Shown) :=
  let data_column_index := data_column_index_from columns 0 in
  if decide (Some column = data_column_index) then
    match Py_list.getitem (m_record_ids (v_model v)) row with
    | Raise e => Raise e
    | Ok record_id =>
        match dict_getitem (m_records (v_model v)) record_id with
        | Raise e => Raise e
        | Ok record =>
            Ok (Some {| printed := "Data cell clicked at row " +:+ pretty row
                                   +:+ ": " +:+ r_data record;
                        box_title := "Event Data for Event with Record id: "
                                     +:+ pretty record_id;
                        box_text := r_data record |})
        end
    end
  else Ok None.

(** ** The tab widget

    [QTabWidget] belongs to Qt; the three calls the program makes are
    modelled after Qt's documentation: [addTab] appends and returns the
    new index, [removeTab] deletes the page at a valid index and moves the
    later pages one place down, [setCurrentIndex] ignores an index that no
    page has. *)

Record Tab : Type := mkTab {
  tab_label : string;
  tab_view : nat          (* the [evtx_view] attribute: a reference *)
}.

Record QTabWidget : Type := mkQTabWidget {
  tabs : list Tab;
  currentIndex : Z        (* -1 when there is no page *)
}.

Definition tab_count (t : QTabWidget) : Z := Z.of_nat (length (tabs t)).

Definition valid_tab (t : QTabWidget) (i : Z) : bool :=
  (0 <=? i) && (i <? tab_count t).

Definition addTab (page : Tab) (t : QTabWidget) : Z * QTabWidget :=
  (tab_count t,
   {| tabs := tabs t ++ [page];
      currentIndex := if tab_count t =? 0 then 0 else currentIndex t |}).

Definition removeTab (i : Z) (t : QTabWidget) : QTabWidget :=
  if valid_tab t i then
    let rest := delete (Z.to_nat i) (tabs t) in
    let n := Z.of_nat (length rest) in
    {| tabs := rest;
       currentIndex :=
         if i <? currentIndex t then currentIndex t - 1
         else if i =? currentIndex t then Z.min i (n - 1)
         else currentIndex t |}
  else t.

Definition setCurrentIndex (i : Z) (t : QTabWidget) : QTabWidget :=
  if valid_tab t i then {| tabs := tabs t; currentIndex := i |} else t.

Definition currentWidget (t : QTabWidget) : option Tab :=
  if valid_tab t (currentIndex t) then tabs t !! Z.to_nat (currentIndex t) else None.

(** ** class MainWindow *)

(** [views] is the store of the [EvtxView] objects created so far; a tab
    page and [cur_evtx_view] refer to a view by its position there.
    [console] collects what the program prints. *)
Record MainWindow : Type := mkMainWindow {
  files : gmap string Z;
  tab_widget : QTabWidget;
  views : list EvtxView;
  searchInEVTData : bool;
  search_msgbox : option string;
  cur_evtx_view : option nat;
  cur_search_index : Z;
  found : list (Z * string);
  console : list string
}.

Definition MainWindow_init : MainWindow :=
  {| files := ∅;
     tab_widget := {| tabs := []; currentIndex := -1 |};
     views := [];
     searchInEVTData := false;
     search_msgbox := None;
     cur_evtx_view := None;
     cur_search_index := 0;
     found := [];
     console := [] |}.

Definition set_files (f : gmap string Z) (w : MainWindow) : MainWindow :=
  {| files := f; tab_widget := tab_widget w; views := views w;
     searchInEVTData := searchInEVTData w; search_msgbox := search_msgbox w;
     cur_evtx_view := cur_evtx_view w; cur_search_index := cur_search_index w;
     found := found w; console := console w |}.

Definition set_tab_widget (t : QTabWidget) (w : MainWindow) : MainWindow :=
  {| files := files w; tab_widget := t; views := views w;
     searchInEVTData := searchInEVTData w; search_msgbox := search_msgbox w;
     cur_evtx_view := cur_evtx_view w; cur_search_index := cur_search_index w;
     found := found w; console := console w |}.

Definition set_views (vs : list EvtxView) (w : MainWindow) : MainWindow :=
  {| files := files w; tab_widget := tab_widget w; views := vs;
     searchInEVTData := searchInEVTData w; search_msgbox := search_msgbox w;
     cur_evtx_view := cur_evtx_view w; cur_search_index := cur_search_index w;
     found := found w; console := console w |}.

Definition set_search_msgbox (text : string) (w : MainWindow) : MainWindow :=
  {| files := files w; tab_widget := tab_widget w; views := views w;
     searchInEVTData := searchInEVTData w; search_msgbox := Some text;
     cur_evtx_view := cur_evtx_view w; cur_search_index := cur_search_index w;
     found := found w; console := console w |}.

Definition set_cur_search_index (i : Z) (w : MainWindow) : MainWindow :=
  {| files := files w; tab_widget := tab_widget w; views := views w;
     searchInEVTData := searchInEVTData w; search_msgbox := search_msgbox w;
     cur_evtx_view := cur_evtx_view w; cur_search_index := i;
     found := found w; console := console w |}.

Definition set_found (l : list (Z * string)) (view : nat) (w : MainWindow) : MainWindow :=
  {| files := files w; tab_widget := tab_widget w; views := views w;
     searchInEVTData := searchInEVTData w; search_msgbox := search_msgbox w;
     cur_evtx_view := Some view; cur_search_index := cur_search_index w;
     found := l; console := console w |}.

Definition print (line : string) (w : MainWindow) : MainWindow :=
  {| files := files w; tab_widget := tab_widget w; views := views w;
     searchInEVTData := searchInEVTData w; search_msgbox := search_msgbox w;
     cur_evtx_view := cur_evtx_view w; cur_search_index := cur_search_index w;
     found := found w; console := console w ++ [line] |}.

(** The text both [display_search_results] and [navigate_search] put in
    the message box. *)
Definition search_text (w : MainWindow) : string :=
  "Found: " +:+ pretty (Z.of_nat (length (found w))) +:+
  ", Current: " +:+ pretty (cur_search_index w + 1).

Definition display_search_results (w : MainWindow) : MainWindow :=
  let w1 := set_cur_search_index 0 w in
  set_search_msgbox (search_text w1) w1.

(** [a % b] on integers. *)
Definition py_mod (a b : Z) : result Z :=
  if b =? 0 then Raise ZeroDivisionError else Ok (a mod b).

(** The call of [scroll_to_record_id] on the view [cur_evtx_view] refers to. *)
Definition scroll_current_view (record_id : Z) : Py MainWindow unit := fun w =>
  match cur_evtx_view w with
  | None => (Raise AttributeError, w)
  | Some a =>
      match views w !! a with
      | None => (Raise AttributeError, w)
      | Some v =>
          let '(line, v') := scroll_to_record_id record_id v in
          let w1 := set_views (<[a := v']> (views w)) w in
          (Ok tt, match line with Some l => print l w1 | None => w1 end)
      end
  end.

Definition navigate_search (direction : Z) : Py MainWindow unit :=
  ((if direction =? -1 then
      (let* w := get in
       put (set_cur_search_index (cur_search_index w - 1) w) ;;;
       let* w := get in
       if cur_search_index w <? 0
       then put (set_cur_search_index (Z.of_nat (length (found w)) - 1) w)
       else ret tt)
    else if direction =? 1 then
      (let* w := get in
       put (set_cur_search_index (cur_search_index w + 1) w) ;;;
       let* w := get in
       let* i := lift (py_mod (cur_search_index w) (Z.of_nat (length (found w)))) in
       put (set_cur_search_index i w))
    else ret tt) ;;;
   let* w := get in
   let* entry := lift (Py_list.getitem (found w) (cur_search_index w)) in
   scroll_current_view (fst entry) ;;;
   (fun w => match search_msgbox w with
             | None => (Raise AttributeError, w)
             | Some _ => (Ok tt, set_search_msgbox (search_text w) w)
             end))%py.

(** The two buttons of the message box and the direction each passes. *)
Inductive Button : Type := Previous | Next.

Definition direction_of (b : Button) : Z :=
  match b with
  | Previous => -1
  | Next => 1
  end.

Definition click (b : Button) : Py MainWindow unit := navigate_search (direction_of b).

Fixpoint clicks (bs : list Button) : Py MainWindow unit :=
  match bs with
  | [] => ret tt
  | b :: rest => (click b ;;; clicks rest)%py
  end.

Section MainWindow.

(** The records [PyEvtxParser(filename).records()] yields, and
    [Path(filename).name]. *)
Variable PyEvtxParser_records : string -> result (list RawRecord).
Variable Path_name : string -> string.

Definition EvtxViewModel_init (filename : string) : result EvtxViewModel :=
  match PyEvtxParser_records filename with
  | Raise e => Raise e
  | Ok parsed => Ok (load_data parsed (EvtxViewModel_new filename))
  end.

Definition EvtxView_init (filename : string) : result EvtxView :=
  match EvtxViewModel_init filename with
  | Raise e => Raise e
  | Ok model => Ok {| v_model := model; v_highlighted_row := None;
                      v_current_index := None |}
  end.

Definition open_file (filename : string) : Py MainWindow unit := fun w =>
  match files w !! filename with
  | Some index =>
      if index =? -1 then (Raise AssertionError, w)
      else (Ok tt, set_tab_widget (setCurrentIndex index (tab_widget w)) w)
  | None =>
      match EvtxView_init filename with
      | Raise e => (Raise e, w)
      | Ok evtx_view =>
          let a := length (views w) in
          let w1 := set_views (views w ++ [evtx_view]) w in
          let new_tab := {| tab_label := Path_name filename; tab_view := a |} in
          let '(index, t) := addTab new_tab (tab_widget w1) in
          let w2 := set_tab_widget t w1 in
          let w3 := set_files (<[filename := index]> (files w2)) w2 in
          if index =? -1 then (Raise AssertionError, w3)
          else (Ok tt, set_tab_widget (setCurrentIndex index (tab_widget w3)) w3)
      end
  end.

Definition close_tab (index : Z) (w : MainWindow) : MainWindow :=
  let w1 := set_tab_widget (removeTab index (tab_widget w)) w in
  set_files (filter (fun kv => kv.2 ≠ index) (files w1)) w1.

End MainWindow.

Section MainWindow_search.

(** [etree.XML], and what [print] writes for a tab page and for the view
    a page refers to (the [repr] of the two objects). *)
Variable etree_XML : string -> result Node.
Variable widget_repr : Tab -> string.
Variable view_repr : nat -> string.

Definition set_view_model (model : EvtxViewModel) (v : EvtxView) : EvtxView :=
  {| v_model := model; v_highlighted_row := v_highlighted_row v;
     v_current_index := v_current_index v |}.

(** [action_search], given what the input dialog returns. The value is the
    title and text of the information box it shows, if it shows one. *)
Definition action_search (dialog : string * bool)
  : Py MainWindow (option (string * string)) := fun w =>
  if decide (files w = ∅)
  then (Ok (Some ("Search", "No file opened!")), w)
  else
    let '(text, ok) := dialog in
    if ok && negb (bool_decide (text = ""))
    then
      match currentWidget (tab_widget w) with
      | None => (Raise AttributeError, print "None" w)
      | Some current_widget =>
          let w1 := print (widget_repr current_widget) w in
          let w2 := print (view_repr (tab_view current_widget)) w1 in
          match views w2 !! tab_view current_widget with
          | None => (Raise AttributeError, w2)
          | Some evtx_view =>
              let '(res, model) :=
                search_records etree_XML text (searchInEVTData w2)
                  (get_evtxViewModel evtx_view) in
              let w3 := set_views (<[tab_view current_widget :=
                                       set_view_model model evtx_view]> (views w2))
                          w2 in
              match res with
              | Raise e => (Raise e, w3)
              | Ok [] => (Ok (Some ("Search Results", "Nothing found.")), w3)
              | Ok found =>
                  (Ok None,
                   display_search_results
                     (set_found found (tab_view current_widget) w3))
              end
          end
      end
    else (Ok None, w).

End MainWindow_search.

(** * Notions used in the statements *)

(** Whether the character [c] occurs in a string. *)
Fixpoint occurs (c : ascii) (s : string) : bool :=
  match s with
  | EmptyString => false
  | String a s' => Ascii.eqb a c || occurs c s'
  end.

(** What one turn of the loading loop does to the dict. *)
Definition insert_record (acc : gmap Z EventRecord) (record : RawRecord)
  : gmap Z EventRecord :=
  <[event_record_id record := EventRecord_init record]> acc.

Section Statements.

Variable etree_XML : string -> result Node.
Variable py_int : string -> result Z.

(** The object after the properties [fs] have been read one after the
    other, whatever each read returned or raised. *)
Fixpoint after_reads (fs : list Field) (r : EventRecord) : EventRecord :=
  match fs with
  | [] => r
  | f :: rest => after_reads rest (read_field etree_XML py_int f r).2
  end.

(** The three fields as one parse of the text [d] yields them: the text
    of [System/EventID], the text of [System/Level] and the [Name]
    attribute of [System/Provider] (lines 85 to 89 read as a function of
    the parsed text). *)
Definition decoded_fields (d : string)
  : result (option string * option string * string) :=
  match etree_XML d with
  | Raise e => Raise e
  | Ok tree =>
      match XmlElement_init tree with
      | Raise e => Raise e
      | Ok root =>
          match XmlElement_getitem root "System" with
          | Raise e => Raise e
          | Ok sys =>
              match XmlElement_getitem sys "EventID",
                    XmlElement_getitem sys "Level",
                    XmlElement_getitem sys "Provider" with
              | Ok e, Ok l, Ok p =>
                  match dict_getitem (XmlElement_attrib p) "Name" with
                  | Ok name => Ok (XmlElement_text e, XmlElement_text l, name)
                  | Raise e => Raise e
                  end
              | Raise e, _, _ => Raise e
              | _, Raise e, _ => Raise e
              | _, _, Raise e => Raise e
              end
          end
      end
  end.

(** The object a run of [__parse_data] leaves when the payload decodes to
    the fields [e], [l] and [p]. *)
Definition parsed_record (r : EventRecord) (e l : option string) (p : string)
  : EventRecord :=
  {| r_id := r_id r; r_timestamp := r_timestamp r;
     r_data := remove_pi (r_data r); r_parsed := false;
     r_attrib := <["Provider" := Some p]>
                   (<["Level" := l]> (<["EventID" := e]> (r_attrib r)));
     xml_calls := xml_calls r ++ [remove_pi (r_data r)] |}.

(** The search condition read off the fields of a record: the text
    occurs in the provider name, in the text of [EventID], or, when
    the search in the event data is switched on, in the payload once its
    leading processing instruction is removed. *)
Definition record_matches (text : string) (checked : bool) (r : EventRecord)
  : bool :=
  let d := remove_pi (r_data r) in
  match decoded_fields d with
  | Ok (Some e, _, p) =>
      Py_str.contains text p || Py_str.contains text e
      || (checked && Py_str.contains text d)
  | _ => false
  end.

(** A payload the search can evaluate: once the leading processing
    instruction is removed no ["?>"] is left, and the rest parses to a
    tree with [System/Provider/@Name], [System/Level] and a
    [System/EventID] that has a text. *)
Definition searchable (record : RawRecord) : Prop :=
  Py_str.contains "?>" (remove_pi (data record)) = false /\
  exists e l p, decoded_fields (remove_pi (data record)) = Ok (Some e, l, p).

(** The pair the search appends for a record. *)
Definition found_entry (r : EventRecord) : Z * string := (r_id r, r_timestamp r).

(** What the loop relies on for a record object, and what it keeps. *)
Definition ready (r : EventRecord) : Prop :=
  r_parsed r = false /\
  remove_pi (remove_pi (r_data r)) = remove_pi (r_data r) /\
  exists e l p, decoded_fields (remove_pi (r_data r)) = Ok (Some e, l, p).

(** Two states of a record object in which the search sees the same. *)
Definition same_view (r r' : EventRecord) : Prop :=
  r_id r' = r_id r /\ r_timestamp r' = r_timestamp r /\
  remove_pi (r_data r') = remove_pi (r_data r).

(** The entries the loop adds when it visits the object stored under
    [rid]. *)
Definition hits (text : string) (checked : bool)
    (recs : gmap Z EventRecord) (rid : Z) : list (Z * string) :=
  match recs !! rid with
  | Some r => if record_matches text checked r then [found_entry r] else []
  | None => []
  end.

Definition all_ready (recs : gmap Z EventRecord) : Prop :=
  forall k r, recs !! k = Some r -> ready r.

End Statements.

(** A window on which the message box of [display_search_results] is
    open: [found] is not empty, [cur_evtx_view] refers to a view, the
    message box exists and the position is in range. *)
Definition navigable (a : nat) (w : MainWindow) : Prop :=
  found w <> [] /\ cur_evtx_view w = Some a /\ is_Some (views w !! a) /\
  is_Some (search_msgbox w) /\
  0 <= cur_search_index w < Z.of_nat (length (found w)).

(** The file a tab page shows: the file name kept by the model of the
    view the page refers to. *)
Definition tab_file (w : MainWindow) (t : Tab) : option string :=
  match views w !! tab_view t with
  | Some v => Some (m_filename (v_model v))
  | None => None
  end.

Definition current_file (w : MainWindow) : option string :=
  match currentWidget (tab_widget w) with
  | Some t => tab_file w t
  | None => None
  end.

(** [s] is what is left of [t] when some leading part is cut off. *)
Definition string_suffix (s t : string) : Prop := exists pre, t = pre +:+ s.

(** How many places a sequence of clicks moves forward: one for each
    [Next], minus one for each [Previous]. *)
Fixpoint net_steps (bs : list Button) : Z :=
  match bs with
  | [] => 0
  | Previous :: rest => net_steps rest - 1
  | Next :: rest => net_steps rest + 1
  end.

(** Every entry of the map of open files points at a tab page that shows
    that file. *)
Definition files_point_at_tabs (w : MainWindow) : Prop :=
  forall filename index,
    files w !! filename = Some index ->
    0 <= index /\
    exists t, tabs (tab_widget w) !! Z.to_nat index = Some t /\
              tab_file w t = Some filename.

(** A later state of a record object that still has the id and the
    timestamp of the earlier one and stores what is left of its text when
    a leading part is cut off; and the same for all entries of a dict. *)
Definition kept (r r' : EventRecord) : Prop :=
  r_id r' = r_id r /\ r_timestamp r' = r_timestamp r /\
  string_suffix (r_data r') (r_data r).

Definition records_kept (recs recs' : gmap Z EventRecord) : Prop :=
  forall k,
    match recs !! k, recs' !! k with
    | Some r, Some r' => kept r r'
    | None, None => True
    | _, _ => False
    end.

(** The position a click leads to from position [p] in a list of [n]
    results. *)
Definition next_position (b : Button) (n p : Z) : Z :=
  match b with
  | Previous => if p =? 0 then n - 1 else p - 1
  | Next => if p =? n - 1 then 0 else p + 1
  end.

(** The window after the files [fs] have been opened one after the other,
    whether each open returned or raised. *)
Fixpoint open_files (PyEvtxParser_records : string -> result (list RawRecord))
    (Path_name : string -> string) (fs : list string) (w : MainWindow)
  : MainWindow :=
  match fs with
  | [] => w
  | f :: rest =>
      open_files PyEvtxParser_records Path_name rest
        (open_file PyEvtxParser_records Path_name f w).2
  end.

(** Every record of the dict is stored under its own id. *)
Definition keyed (m : EvtxViewModel) : Prop :=
  forall k r, m_records m !! k = Some r -> r_id r = k.

(** * Sample records

    The records used in the examples, and stand-ins for the two library
    functions: [sample_XML] answers as [etree.XML] does on the documents
    below and rejects every other text; [sample_int] is [int] on strings
    of decimal digits. *)

Definition ns : string := "{http://schemas.microsoft.com/win/2004/08/events/event}".

Definition event_text (event_id level extra : string) : string :=
  "<Event xmlns='http://schemas.microsoft.com/win/2004/08/events/event'>" +:+
  "<System><Provider Name='SCM'/><EventID>" +:+ event_id +:+
  "</EventID><Level>" +:+ level +:+ "</Level></System>" +:+ extra +:+ "</Event>".

Definition system_node (event_id level : string) : Node :=
  mkNode (TagName (ns +:+ "System")) ∅ None
    [mkNode (TagName (ns +:+ "Provider")) {["Name" := "SCM"]} None [];
     mkNode (TagName (ns +:+ "EventID")) ∅ (Some event_id) [];
     mkNode (TagName (ns +:+ "Level")) ∅ (Some level) []].

Definition event_tree (event_id level : string) (extra : list Node) : Node :=
  mkNode (TagName (ns +:+ "Event")) ∅ None (system_node event_id level :: extra).

Definition xml_declaration : string := "<?xml version='1.0' encoding='utf-8'?>".

Definition note_text : string := "<EventData><Data>why?>so</Data></EventData>".
Definition note_node : Node :=
  mkNode (TagName (ns +:+ "EventData")) ∅ None
    [mkNode (TagName (ns +:+ "Data")) ∅ (Some "why?>so") []].

Definition sample_XML (d : string) : result Node :=
  if decide (d = event_text "7036" "4" "") then Ok (event_tree "7036" "4" [])
  else if decide (d = event_text "7036" "6" "") then Ok (event_tree "7036" "6" [])
  else if decide (d = event_text "7040" "4" note_text)
       then Ok (event_tree "7040" "4" [note_node])
  else Raise XMLSyntaxError.

Fixpoint digits_value (s : string) (acc : Z) : option Z :=
  match s with
  | EmptyString => Some acc
  | String c s' =>
      let n := Z.of_nat (nat_of_ascii c) in
      if (48 <=? n) && (n <=? 57) then digits_value s' (10 * acc + (n - 48))
      else None
  end.

Definition sample_int (s : string) : result Z :=
  match s, digits_value s 0 with
  | String _ _, Some n => Ok n
  | _, _ => Raise ValueError
  end.

Definition sample_record : RawRecord :=
  {| event_record_id := 1; timestamp := "2024-05-01 10:00:00.000000 UTC";
     data := xml_declaration +:+ event_text "7036" "4" "" |}.

Definition level6_record : RawRecord :=
  {| event_record_id := 2; timestamp := "2024-05-01 10:00:01.000000 UTC";
     data := xml_declaration +:+ event_text "7036" "6" "" |}.

Definition note_record : RawRecord :=
  {| event_record_id := 3; timestamp := "2024-05-01 10:00:02.000000 UTC";
     data := xml_declaration +:+ event_text "7040" "4" note_text |}.

Definition first_seven : RawRecord :=
  {| event_record_id := 7; timestamp := "2024-05-01 10:00:03.000000 UTC";
     data := xml_declaration +:+ event_text "7036" "4" "" |}.

Definition second_seven : RawRecord :=
  {| event_record_id := 7; timestamp := "2024-05-01 10:00:04.000000 UTC";
     data := xml_declaration +:+ event_text "7036" "6" "" |}.

(** Three files for the examples, with what the parser yields for each
    and the last component of each path. *)
Definition system_evtx : string := "C:/logs/System.evtx".
Definition security_evtx : string := "C:/logs/Security.evtx".
Definition application_evtx : string := "C:/logs/Application.evtx".

Definition sample_parser (filename : string) : result (list RawRecord) :=
  if decide (filename = system_evtx) then Ok [sample_record; level6_record]
  else if decide (filename = security_evtx) then Ok [note_record]
  else if decide (filename = application_evtx) then Ok []
  else Raise OSError.

Definition sample_name (filename : string) : string :=
  if decide (filename = system_evtx) then "System.evtx"
  else if decide (filename = security_evtx) then "Security.evtx"
  else if decide (filename = application_evtx) then "Application.evtx"
  else filename.

(** The window after the three files were opened in turn and the first
    tab was closed. *)
Definition three_opened : MainWindow :=
  let w1 := (open_file sample_parser sample_name system_evtx MainWindow_init).2 in
  let w2 := (open_file sample_parser sample_name security_evtx w1).2 in
  (open_file sample_parser sample_name application_evtx w2).2.

Definition first_closed : MainWindow := close_tab 0 three_opened.

(** A window with one file open and two search results. *)
Definition searched : MainWindow :=
  let w := (open_file sample_parser sample_name system_evtx MainWindow_init).2 in
  set_found [(1, timestamp sample_record); (2, timestamp level6_record)] 0%nat w.

(** An element with two children that differ only in their namespace,
    and an element with a comment among its children. *)
Definition first_twin : Node := mkNode (TagName "{urn:a}Data") ∅ (Some "first") [].
Definition second_twin : Node := mkNode (TagName "{urn:b}Data") ∅ (Some "second") [].
Definition twins_node : Node :=
  mkNode (TagName "EventData") ∅ None [first_twin; second_twin].

Definition comment_node : Node := mkNode TagFactory ∅ (Some " note ") [].
Definition commented_node : Node :=
  mkNode (TagName "Event") ∅ None
    [mkNode (TagName "System") ∅ None []; comment_node; first_twin].

(** Payloads with a missing or empty element, and a stand-in for
    [etree.XML] that knows them. *)
Definition leaf (tag : string) (text : option string) : Node :=
  mkNode (TagName tag) ∅ text [].

Definition provider_leaf : Node := mkNode (TagName "Provider") {["Name" := "SCM"]} None [].

Definition plain_event (fields : list Node) : Node :=
  mkNode (TagName "Event") ∅ None [mkNode (TagName "System") ∅ None fields].

Definition no_provider_text : string :=
  "<Event><System><EventID>1</EventID><Level>4</Level></System></Event>".
Definition empty_level_text : string :=
  "<Event><System><Provider Name='SCM'/><EventID>1</EventID><Level/></System></Event>".
Definition worded_level_text : string :=
  "<Event><System><Provider Name='SCM'/><EventID>1</EventID><Level>high</Level></System></Event>".
Definition empty_event_id_text : string :=
  "<Event><System><Provider Name='SCM'/><EventID/><Level>4</Level></System></Event>".

Definition edge_XML (d : string) : result Node :=
  if decide (d = no_provider_text)
  then Ok (plain_event [leaf "EventID" (Some "1"); leaf "Level" (Some "4")])
  else if decide (d = empty_level_text)
  then Ok (plain_event [provider_leaf; leaf "EventID" (Some "1"); leaf "Level" None])
  else if decide (d = worded_level_text)
  then Ok (plain_event [provider_leaf; leaf "EventID" (Some "1");
                        leaf "Level" (Some "high")])
  else if decide (d = empty_event_id_text)
  then Ok (plain_event [provider_leaf; leaf "EventID" None; leaf "Level" (Some "4")])
  else Raise XMLSyntaxError.

Definition edge_record (record_id : Z) (text : string) : RawRecord :=
  {| event_record_id := record_id; timestamp := "2024-05-01 10:00:05.000000 UTC";
     data := text |}.

(** Stand-ins for what [print] writes for a tab page and for a view, and
    the window with one file open, before any search. *)
Definition sample_widget_repr (t : Tab) : string := "<QWidget " +:+ tab_label t +:+ ">".
Definition sample_view_repr (a : nat) : string := "<EvtxView " +:+ pretty a +:+ ">".

Definition system_view : EvtxView :=
  {| v_model := load_data [sample_record; level6_record]
                  (EvtxViewModel_new system_evtx);
     v_highlighted_row := None; v_current_index := None |}.

Definition one_opened : MainWindow :=
  (open_file sample_parser sample_name system_evtx MainWindow_init).2.

(** * Properties *)

(** ** Strings *)

Lemma append_nil (s : string) : "" +:+ s = s.
Proof. reflexivity. Qed.

Lemma append_cons a (s1 s2 : string) : String a s1 +:+ s2 = String a (s1 +:+ s2).
Proof. reflexivity. Qed.

Lemma startswith_brace a s :
  Py_str.startswith "}" (String a s) = Ascii.eqb a "}".
Proof.
  cbn [Py_str.startswith]. rewrite Ascii.eqb_sym. by destruct (Ascii.eqb a "}").
Qed.

Lemma rfind_no_brace s i : occurs "}" s = false -> Py_str.rfind_at "}" s i = -1.
Proof.
  revert i. induction s as [|a s IH]; intros i H; [done|].
  cbn [occurs] in H. apply orb_false_iff in H as [Ha Hs].
  cbn [Py_str.rfind_at]. by rewrite (IH _ Hs), startswith_brace, Ha.
Qed.

Lemma rfind_last_brace pre b i :
  0 <= i -> occurs "}" b = false ->
  Py_str.rfind_at "}" (pre +:+ String "}" b) i = i + Py_str.len pre.
Proof.
  revert i. induction pre as [|a pre IH]; intros i Hi Hb.
  - rewrite append_nil. cbn [Py_str.rfind_at].
    rewrite (rfind_no_brace _ _ Hb), startswith_brace.
    unfold Py_str.len. simpl. lia.
  - rewrite append_cons. cbn [Py_str.rfind_at]. rewrite IH by (lia || done).
    unfold Py_str.len. cbn [String.length].
    destruct (_ =? -1) eqn:E; lia.
Qed.

Lemma skip_past pre c s :
  Py_str.skip (S (String.length pre)) (pre +:+ String c s) = s.
Proof. induction pre; [done|]. by rewrite append_cons. Qed.

Lemma local_name_plain t : occurs "}" t = false -> local_name t = t.
Proof.
  intros H. unfold local_name, Py_str.rfind. by rewrite (rfind_no_brace _ _ H).
Qed.

Lemma local_name_qualified pre b :
  occurs "}" b = false -> local_name (pre +:+ String "}" b) = b.
Proof.
  intros H. unfold local_name, Py_str.rfind.
  rewrite rfind_last_brace by (lia || done).
  unfold Py_str.slice_from, Py_str.len.
  destruct (Z.ltb_spec (0 + Z.of_nat (String.length pre) + 1) 0); [lia|].
  replace (Z.to_nat (0 + Z.of_nat (String.length pre) + 1))
    with (S (String.length pre)) by lia.
  apply skip_past.
Qed.

(** ** XmlElement *)

Lemma XmlElement_init_unfold root :
  XmlElement_init root =
  match XmlElement_children XmlElement_init (node_children root) ∅ with
  | Ok children => Ok (mkXmlElement children root)
  | Raise e => Raise e
  end.
Proof. by destruct root. Qed.

Section Children.

Variable init : Node -> result XmlElement.

Lemma children_kept cs : forall acc m k,
  XmlElement_children init cs acc = Ok m ->
  is_Some (acc !! k) -> is_Some (m !! k).
Proof.
  induction cs as [|c cs IH]; intros acc m k H Hk; simpl in H.
  - by inversion H; subst.
  - destruct (node_tag c) as [t|]; [|done].
    destruct (init c) as [x|]; [|done].
    apply (IH _ _ k H). rewrite lookup_insert.
    case_decide; [by eexists | done].
Qed.

Lemma children_stored cs : forall acc m c t,
  XmlElement_children init cs acc = Ok m ->
  c ∈ cs -> node_tag c = TagName t -> is_Some (m !! local_name t).
Proof.
  induction cs as [|c' cs IH]; intros acc m c t H Hin Ht; simpl in H.
  - by apply elem_of_nil in Hin.
  - destruct (node_tag c') as [t'|] eqn:Ht'; [|done].
    destruct (init c') as [x|]; [|done].
    apply elem_of_cons in Hin as [->|Hin].
    + rewrite Ht in Ht'. injection Ht' as ->.
      apply (children_kept _ _ _ _ H). rewrite lookup_insert_eq. by eexists.
    + by apply (IH _ _ c t H).
Qed.

Lemma children_origin cs : forall acc m k x,
  XmlElement_children init cs acc = Ok m ->
  m !! k = Some x ->
  acc !! k = Some x \/
  exists c t, c ∈ cs /\ node_tag c = TagName t /\ k = local_name t /\ init c = Ok x.
Proof.
  induction cs as [|c' cs IH]; intros acc m k x H Hk; simpl in H.
  - inversion H; subst. by left.
  - destruct (node_tag c') as [t'|] eqn:Ht'; [|done].
    destruct (init c') as [x'|] eqn:Hx'; [|done].
    destruct (IH _ _ _ _ H Hk) as [Hacc | (c & t & Hin & Ht & -> & Hc)].
    + rewrite lookup_insert in Hacc. case_decide as Hd.
      * injection Hacc as ->. right. exists c', t'.
        split; [apply elem_of_cons; by left | done].
      * by left.
    + right. exists c, t. split; [apply elem_of_cons; by right | done].
Qed.

End Children.

(** C8. The children of a wrapped element are stored, and found again by
    [__getitem__], under their tag with the namespace cut off: every child
    can be looked up under [local_name] of its tag, every key of the dict
    is [local_name] of the tag of a child (and holds the wrapper of such a
    child), [local_name] of a tag that ends in ['}' ++ b] with no ['}'] in
    [b] is [b], and [local_name] of a tag without ['}'] is the tag. *)
Theorem XmlElement_children_keyed_by_local_name (root : Node) (x : XmlElement) :
  XmlElement_init root = Ok x ->
  (forall c t, c ∈ node_children root -> node_tag c = TagName t ->
     exists x', XmlElement_getitem x (local_name t) = Ok x')
  /\ (forall k x', XmlElement_getitem x k = Ok x' ->
        exists c t, c ∈ node_children root /\ node_tag c = TagName t /\
                    k = local_name t /\ XmlElement_init c = Ok x')
  /\ (forall pre b, occurs "}" b = false -> local_name (pre +:+ String "}" b) = b)
  /\ (forall t, occurs "}" t = false -> local_name t = t).
Proof.
  rewrite XmlElement_init_unfold.
  destruct (XmlElement_children _ _ _) as [m|] eqn:Hm; [|done].
  intros [= <-]. unfold XmlElement_getitem, dict_getitem. cbn [xml_children].
  repeat split.
  - intros c t Hin Ht.
    destruct (children_stored _ _ _ _ c t Hm Hin Ht) as [x' ->]. by exists x'.
  - intros k x' Hk. destruct (m !! k) as [y|] eqn:Hy; [|done].
    injection Hk as ->.
    destruct (children_origin _ _ _ _ _ _ Hm Hy) as [Hempty | Hc]; [|done].
    by rewrite lookup_empty in Hempty.
  - apply local_name_qualified.
  - apply local_name_plain.
Qed.

Lemma XmlElement_children_keyed_by_local_name_witness :
  exists x sys,
    XmlElement_init (event_tree "7036" "4" []) = Ok x
    /\ XmlElement_getitem x "System" = Ok sys.
Proof.
  destruct (XmlElement_init (event_tree "7036" "4" [])) as [x|] eqn:Hx;
    [|vm_compute in Hx; discriminate].
  destruct (XmlElement_children_keyed_by_local_name _ x Hx)
    as (Hstored & _).
  destruct (Hstored (system_node "7036" "4") (ns +:+ "System")) as [sys Hsys].
  - apply elem_of_cons. by left.
  - reflexivity.
  - exists x, sys. split; [done | exact Hsys].
Defined.

(** ** EventRecord *)

Ltac py_unfold :=
  unfold EventRecord_Level, EventRecord_EventID, EventRecord_Provider,
    EventRecord_data, EventRecord_id, EventRecord_timestamp,
    parse_data, call_etree_XML, attrib_getitem, log_xml_call, set_attrib,
    set_data, bind, get, put, lift, ret, raise.

Section EventRecord_facts.

Variable etree_XML : string -> result Node.
Variable py_int : string -> result Z.

(** What a run of [__parse_data] leaves of the object, whether it
    returns or raises. *)
Lemma parse_data_frame (r : EventRecord) :
  let r' := (parse_data etree_XML r).2 in
  r_id r' = r_id r /\ r_timestamp r' = r_timestamp r /\
  r_parsed r' = r_parsed r /\
  r_data r' = (if r_parsed r then r_data r else remove_pi (r_data r)) /\
  xml_calls r' = (if r_parsed r then xml_calls r
                  else xml_calls r ++ [remove_pi (r_data r)]).
Proof.
  py_unfold. unfold remove_pi. cbn zeta.
  destruct (r_parsed r) eqn:Hp; [done|].
  destruct (Py_str.find "?>" (r_data r) =? -1); cbn -[Py_str.find Py_str.slice_from];
    repeat case_match; simplify_eq; cbn; by rewrite ?Hp.
Qed.

Lemma read_field_state (f : Field) (r : EventRecord) :
  (read_field etree_XML py_int f r).2 = (parse_data etree_XML r).2.
Proof.
  destruct f; unfold read_field, EventRecord_EventID, EventRecord_Provider,
    EventRecord_Level, attrib_getitem, bind, lift, ret;
    destruct (parse_data etree_XML r) as [[[]|e] r']; cbn; try done;
    repeat case_match; simplify_eq; done.
Qed.

Lemma after_reads_parsed fs : forall r,
  r_parsed (after_reads etree_XML py_int fs r) = r_parsed r.
Proof.
  induction fs as [|f fs IH]; intros r; [done|]. cbn [after_reads].
  rewrite IH, read_field_state. apply parse_data_frame.
Qed.

Lemma after_reads_calls fs : forall r,
  r_parsed r = false ->
  length (xml_calls (after_reads etree_XML py_int fs r)) = (length (xml_calls r) + length fs)%nat.
Proof.
  induction fs as [|f fs IH]; intros r Hp; cbn [after_reads length]; [lia|].
  destruct (parse_data_frame r) as (_ & _ & Hp' & _ & Hc).
  rewrite IH, read_field_state; [|rewrite read_field_state; congruence].
  rewrite Hc, Hp, length_app. simpl. lia.
Qed.

Lemma parse_data_decoded (r : EventRecord) e l p :
  r_parsed r = false ->
  decoded_fields etree_XML (remove_pi (r_data r)) = Ok (e, l, p) ->
  parse_data etree_XML r = (Ok tt, parsed_record r e l p).
Proof.
  intros Hp. unfold decoded_fields, parsed_record, remove_pi.
  py_unfold. rewrite Hp. cbn zeta.
  destruct (Py_str.find "?>" (r_data r) =? -1);
    cbn -[Py_str.find Py_str.slice_from];
    repeat case_match; simplify_eq; intros; simplify_eq; cbn; by rewrite ?Hp.
Qed.

Lemma levels_lookup (n : Z) :
  levels !! n =
  if n =? 0 then Some "LogAlways" else if n =? 1 then Some "Critical"
  else if n =? 2 then Some "Error" else if n =? 3 then Some "Warning"
  else if n =? 4 then Some "Informational" else if n =? 5 then Some "Verbose"
  else None.
Proof.
  unfold levels. rewrite !lookup_insert, lookup_empty.
  repeat case_decide; subst; try reflexivity.
  rewrite !(proj2 (Z.eqb_neq _ _)) by lia. reflexivity.
Qed.

Lemma Level_decoded (r : EventRecord) e t p n :
  r_parsed r = false ->
  decoded_fields etree_XML (remove_pi (r_data r)) = Ok (e, Some t, p) ->
  py_int t = Ok n ->
  (EventRecord_Level etree_XML py_int r).1 = dict_getitem levels n.
Proof.
  intros Hp Hd Hn. unfold EventRecord_Level, bind.
  rewrite (parse_data_decoded _ _ _ _ Hp Hd).
  unfold attrib_getitem, dict_getitem, lift, parsed_record. cbn.
  rewrite lookup_insert_ne by done. rewrite lookup_insert_eq. cbn.
  rewrite Hn. by destruct (levels !! n).
Qed.

End EventRecord_facts.

(** C3 (as amended). For a record whose payload decodes with the text [t]
    under [System/Level] and for which [int(t)] is [n], the [Level]
    property returns the name the fixed enumeration gives to [n] when [n]
    is one of 0 to 5, and raises [KeyError] for every other [n]. *)
Theorem Level_enumeration_or_KeyError
    (etree_XML : string -> result Node) (py_int : string -> result Z)
    (r : EventRecord) (e : option string) (t p : string) (n : Z) :
  r_parsed r = false ->
  decoded_fields etree_XML (remove_pi (r_data r)) = Ok (e, Some t, p) ->
  py_int t = Ok n ->
  let level := (EventRecord_Level etree_XML py_int r).1 in
  (n = 0 -> level = Ok "LogAlways") /\
  (n = 1 -> level = Ok "Critical") /\
  (n = 2 -> level = Ok "Error") /\
  (n = 3 -> level = Ok "Warning") /\
  (n = 4 -> level = Ok "Informational") /\
  (n = 5 -> level = Ok "Verbose") /\
  (n < 0 \/ 5 < n -> level = Raise KeyError).
Proof.
  intros Hp Hd Hn level. subst level.
  rewrite (Level_decoded etree_XML py_int r e t p n Hp Hd Hn).
  unfold dict_getitem. rewrite levels_lookup.
  repeat split; intros H; try (subst n; reflexivity).
  rewrite !(proj2 (Z.eqb_neq _ _)) by lia. reflexivity.
Qed.

Lemma startswith_cons a b sub s :
  Py_str.startswith (String a sub) (String b s)
  = Ascii.eqb a b && Py_str.startswith sub s.
Proof. reflexivity. Qed.

Lemma startswith_gt_false pre rest :
  occurs ">" pre = false ->
  Py_str.startswith ">" (pre +:+ String "?" (String ">" rest)) = false.
Proof.
  destruct pre as [|a pre]; [done|]. cbn [occurs]. intros H.
  apply orb_false_iff in H as [Ha _].
  rewrite append_cons. cbn [Py_str.startswith].
  rewrite Ascii.eqb_sym, Ha. reflexivity.
Qed.

Lemma find_first_pi pre rest i :
  occurs ">" pre = false ->
  Py_str.find_at "?>" (pre +:+ String "?" (String ">" rest)) i = i + Py_str.len pre.
Proof.
  revert i. induction pre as [|a pre IH]; intros i H.
  - rewrite append_nil. unfold Py_str.len. cbn. lia.
  - cbn [occurs] in H. apply orb_false_iff in H as [Ha Hpre].
    rewrite append_cons. cbn [Py_str.find_at].
    rewrite (startswith_cons "?" a ">"), (startswith_gt_false _ _ Hpre).
    rewrite andb_false_r, IH by done.
    unfold Py_str.len. cbn [String.length]. lia.
Qed.

Lemma remove_pi_first pre rest :
  occurs ">" pre = false -> remove_pi (pre +:+ "?>" +:+ rest) = rest.
Proof.
  intros H. unfold remove_pi, Py_str.find.
  change ("?>" +:+ rest) with (String "?" (String ">" rest)).
  rewrite find_first_pi by done. cbn zeta.
  rewrite (proj2 (Z.eqb_neq _ _)) by (unfold Py_str.len; lia).
  unfold Py_str.slice_from, Py_str.len.
  destruct (Z.ltb_spec (0 + Z.of_nat (String.length pre) + 2) 0); [lia|].
  replace (Z.to_nat (0 + Z.of_nat (String.length pre) + 2))
    with (S (S (String.length pre))) by lia.
  clear. induction pre as [|a pre IH]; [done|]. by rewrite append_cons.
Qed.

Lemma remove_pi_absent d : Py_str.contains "?>" d = false -> remove_pi d = d.
Proof.
  unfold Py_str.contains, remove_pi. cbn zeta. intros H.
  apply negb_false_iff in H. by rewrite H.
Qed.

Lemma after_reads_data_absent etree_XML py_int fs : forall r,
  Py_str.contains "?>" (r_data r) = false ->
  r_data (after_reads etree_XML py_int fs r) = r_data r.
Proof.
  induction fs as [|f fs IH]; intros r H; [done|].
  cbn [after_reads]. rewrite read_field_state.
  destruct (parse_data_frame etree_XML r) as (_ & _ & _ & Hd & _).
  assert (r_data (parse_data etree_XML r).2 = r_data r) as Hsame.
  { rewrite Hd. destruct (r_parsed r); [done|]. by apply remove_pi_absent. }
  rewrite IH; rewrite Hsame; done.
Qed.

(** A record that has been read any number of times is still marked as
    not parsed, and has called [etree.XML] once for every read. *)
Lemma parsed_flag_never_set etree_XML py_int (record : RawRecord) (fs : list Field) :
  r_parsed (after_reads etree_XML py_int fs (EventRecord_init record)) = false.
Proof. by rewrite after_reads_parsed. Qed.

Lemma every_read_parses etree_XML py_int (record : RawRecord) (fs : list Field) :
  length (xml_calls (after_reads etree_XML py_int fs (EventRecord_init record)))
  = length fs.
Proof. by rewrite after_reads_calls. Qed.

(** C1 (the code departs from it). [EventID] is read twice on a fresh
    record: both reads return the same value, yet [etree.XML] has been
    called twice, once per read, and the record is still marked as not
    parsed. *)
Theorem second_read_parses_again :
  let r0 := EventRecord_init sample_record in
  let '(first, r1) := EventRecord_EventID sample_XML r0 in
  let '(second, r2) := EventRecord_EventID sample_XML r1 in
  first = Ok (Some "7036") /\ second = Ok (Some "7036") /\
  xml_calls r1 = [event_text "7036" "4" ""] /\
  xml_calls r2 = [event_text "7036" "4" ""; event_text "7036" "4" ""] /\
  r_parsed r2 = false.
Proof. vm_compute. repeat split; reflexivity. Qed.

(** On a payload with a second ["?>"] the first read of [EventID] returns
    and the second raises: the second read parses what the first left. *)
Example second_read_raises :
  let r0 := EventRecord_init note_record in
  let '(first, r1) := EventRecord_EventID sample_XML r0 in
  let '(second, r2) := EventRecord_EventID sample_XML r1 in
  first = Ok (Some "7040") /\ second = Raise XMLSyntaxError /\
  r_data r2 = "so</Data></EventData></Event>".
Proof. vm_compute. repeat split; reflexivity. Qed.

(** C2 (as stated) fails: after [EventID] has been read, [data] no longer
    returns the text the record was built with. *)
Lemma data_changed_by_read :
  (EventRecord_data
     (read_field sample_XML sample_int FEventID (EventRecord_init sample_record)).2).1
  <> Ok (data sample_record).
Proof. vm_compute. discriminate. Qed.

(** C2 (as amended). The first read of a convenience field on a fresh
    record leaves [data] returning the text the record was built with
    minus everything up to and including its first ["?>"]; for a text
    [pre ++ "?>" ++ rest] with no ['>'] in [pre] that is [rest]; and when
    the text holds no ["?>"], [data] returns it unchanged after any number
    of reads. *)
Theorem data_after_reads
    (etree_XML : string -> result Node) (py_int : string -> result Z)
    (record : RawRecord) :
  (forall f,
     (EventRecord_data
        (read_field etree_XML py_int f (EventRecord_init record)).2).1
     = Ok (remove_pi (data record)))
  /\ (forall pre rest,
        occurs ">" pre = false -> remove_pi (pre +:+ "?>" +:+ rest) = rest)
  /\ (forall fs,
        Py_str.contains "?>" (data record) = false ->
        (EventRecord_data
           (after_reads etree_XML py_int fs (EventRecord_init record))).1
        = Ok (data record)).
Proof.
  split; [|split].
  - intros f. rewrite read_field_state. cbn [EventRecord_data fst].
    by destruct (parse_data_frame etree_XML (EventRecord_init record))
      as (_ & _ & _ & -> & _).
  - apply remove_pi_first.
  - intros fs H. cbn [EventRecord_data fst]. f_equal.
    by apply (after_reads_data_absent etree_XML py_int fs (EventRecord_init record)).
Qed.

Lemma data_after_reads_witness :
  (EventRecord_data
     (read_field sample_XML sample_int FProvider (EventRecord_init sample_record)).2).1
  = Ok (event_text "7036" "4" "")
  /\ remove_pi (data sample_record) = event_text "7036" "4" "".
Proof.
  destruct (data_after_reads sample_XML sample_int sample_record) as (H1 & H2 & _).
  split.
  - exact (H1 FProvider).
  - exact (H2 "<?xml version='1.0' encoding='utf-8'" (event_text "7036" "4" "")
              eq_refl).
Defined.

(** C3 (as stated) fails: for the level 6 the property raises [KeyError]
    instead of returning ["6"]. *)
Lemma Level_6_raises :
  (EventRecord_Level sample_XML sample_int (EventRecord_init level6_record)).1
  = Raise KeyError
  /\ (EventRecord_Level sample_XML sample_int (EventRecord_init level6_record)).1
     <> Ok "6".
Proof. vm_compute. split; [reflexivity | discriminate]. Qed.

Lemma Level_enumeration_or_KeyError_witness :
  (EventRecord_Level sample_XML sample_int (EventRecord_init sample_record)).1
  = Ok "Informational"
  /\ (EventRecord_Level sample_XML sample_int (EventRecord_init level6_record)).1
     = Raise KeyError.
Proof.
  split.
  - apply (Level_enumeration_or_KeyError sample_XML sample_int
             (EventRecord_init sample_record) (Some "7036") "4" "SCM" 4);
      reflexivity.
  - apply (Level_enumeration_or_KeyError sample_XML sample_int
             (EventRecord_init level6_record) (Some "7036") "6" "SCM" 6);
      first [reflexivity | lia].
Defined.

(** ** EvtxViewModel: loading and enumeration *)

Lemma foldl_load_record parsed : forall m,
  m_records (foldl load_record m parsed) = foldl insert_record (m_records m) parsed
  /\ m_record_ids (foldl load_record m parsed)
     = m_record_ids m ++ (event_record_id <$> parsed)
  /\ m_filename (foldl load_record m parsed) = m_filename m
  /\ m_highlighted_row (foldl load_record m parsed) = m_highlighted_row m.
Proof.
  induction parsed as [|r parsed IH]; intros m; cbn [foldl fmap list_fmap].
  - by rewrite app_nil_r.
  - destruct (IH (load_record m r)) as (-> & -> & -> & ->). cbn.
    by rewrite <- app_assoc.
Qed.

Lemma load_data_records filename parsed :
  m_records (load_data parsed (EvtxViewModel_new filename))
  = foldl insert_record ∅ parsed.
Proof.
  unfold load_data. cbn.
  by destruct (foldl_load_record parsed (EvtxViewModel_new filename)) as (-> & _).
Qed.

Lemma load_data_record_ids filename parsed :
  m_record_ids (load_data parsed (EvtxViewModel_new filename))
  = Py_list.sort (event_record_id <$> parsed).
Proof.
  unfold load_data. cbn.
  by destruct (foldl_load_record parsed (EvtxViewModel_new filename))
    as (_ & -> & _).
Qed.

Lemma insert_record_absent parsed : forall acc k,
  k ∉ (event_record_id <$> parsed) ->
  foldl insert_record acc parsed !! k = acc !! k.
Proof.
  induction parsed as [|r parsed IH]; intros acc k Hk; [done|].
  cbn [foldl]. rewrite fmap_cons, not_elem_of_cons in Hk. destruct Hk as [Hne Hk].
  rewrite IH by done. unfold insert_record. by rewrite lookup_insert_ne.
Qed.

Lemma insert_record_last pre r post acc :
  event_record_id r ∉ (event_record_id <$> post) ->
  foldl insert_record acc (pre ++ r :: post) !! event_record_id r
  = Some (EventRecord_init r).
Proof.
  intros H. rewrite foldl_app. cbn [foldl].
  rewrite insert_record_absent by done. unfold insert_record at 1.
  by rewrite lookup_insert_eq.
Qed.

Lemma insert_record_origin parsed : forall acc k x,
  foldl insert_record acc parsed !! k = Some x ->
  acc !! k = Some x \/
  exists r, r ∈ parsed /\ event_record_id r = k /\ x = EventRecord_init r.
Proof.
  induction parsed as [|r parsed IH]; intros acc k x H; [by left|].
  cbn [foldl] in H. destruct (IH _ _ _ H) as [Hacc | (r' & Hin & Hid & Hx)].
  - unfold insert_record in Hacc. rewrite lookup_insert in Hacc.
    case_decide; [|by left]. injection Hacc as <-.
    right. exists r. split; [apply elem_of_cons; by left | done].
  - right. exists r'. split; [apply elem_of_cons; by right | done].
Qed.

Lemma lookup_all_fmap (recs : gmap Z EventRecord) (l : list RawRecord) :
  (forall r, r ∈ l -> recs !! event_record_id r = Some (EventRecord_init r)) ->
  lookup_all recs (event_record_id <$> l) = Ok (EventRecord_init <$> l).
Proof.
  induction l as [|r l IH]; intros H; [done|].
  cbn [fmap list_fmap lookup_all]. unfold dict_getitem.
  rewrite H by (apply elem_of_cons; by left).
  fold (fmap (M := list) event_record_id l). rewrite IH; [done|].
  intros r' Hr'. apply H, elem_of_cons. by right.
Qed.

Lemma strictly_sorted (l : list Z) :
  StronglySorted Z.le l -> NoDup l -> StronglySorted Z.lt l.
Proof.
  induction 1 as [|x l Hs IH Hall]; intros Hnd; [constructor|].
  apply NoDup_cons in Hnd as [Hx Hnd]. constructor; [by apply IH|].
  rewrite Forall_forall in Hall |- *. intros y Hy.
  specialize (Hall y Hy). assert (x <> y) by (intros ->; done). lia.
Qed.

Lemma sort_strongly_sorted (l : list Z) : StronglySorted Z.le (Py_list.sort l).
Proof. apply StronglySorted_merge_sort; apply _. Qed.

Lemma sort_permutation (l : list Z) : Py_list.sort l ≡ₚ l.
Proof. apply merge_sort_Permutation. Qed.

Lemma r_id_init (l : list RawRecord) :
  r_id <$> (EventRecord_init <$> l) = event_record_id <$> l.
Proof. rewrite <- list_fmap_compose. done. Qed.

Lemma fmap_Permutation_inv {A B} (f : A -> B) (l : list A) (k : list B) :
  k ≡ₚ f <$> l -> exists l', k = f <$> l' /\ l ≡ₚ l'.
Proof.
  intros H. destruct (Permutation_map_inv f l H) as (l' & -> & Hl').
  by exists l'.
Qed.

(** C4. When the records of the file have pairwise distinct ids,
    [get_records] returns a list that holds exactly the loaded records
    (it is a rearrangement of them, so there are as many), with strictly
    increasing ids. *)
Theorem get_records_all_ascending (filename : string) (parsed : list RawRecord) :
  NoDup (event_record_id <$> parsed) ->
  exists rs,
    get_records (load_data parsed (EvtxViewModel_new filename)) = Ok rs
    /\ rs ≡ₚ (EventRecord_init <$> parsed)
    /\ length rs = length parsed
    /\ StronglySorted Z.lt (r_id <$> rs).
Proof.
  intros Hnd. unfold get_records.
  rewrite load_data_records, load_data_record_ids.
  destruct (fmap_Permutation_inv event_record_id parsed
              (Py_list.sort (event_record_id <$> parsed)))
    as (sorted & Heq & Hperm); [apply sort_permutation|].
  exists (EventRecord_init <$> sorted). rewrite Heq.
  split; [|split; [|split]].
  - apply lookup_all_fmap. intros r Hr.
    assert (r ∈ parsed) as Hin by (by rewrite Hperm).
    apply list_elem_of_split in Hin as (pre & post & ->).
    apply insert_record_last.
    rewrite fmap_app, fmap_cons in Hnd.
    apply NoDup_app in Hnd as (_ & _ & Hnd).
    by apply NoDup_cons in Hnd as [? _].
  - by rewrite Hperm.
  - rewrite length_fmap. by rewrite Hperm.
  - rewrite r_id_init, <- Heq. apply strictly_sorted.
    + apply sort_strongly_sorted.
    + by rewrite sort_permutation.
Qed.

Lemma get_records_all_ascending_witness :
  exists rs,
    get_records (load_data [note_record; sample_record; level6_record]
                   (EvtxViewModel_new "System.evtx")) = Ok rs
    /\ rs ≡ₚ (EventRecord_init <$> [note_record; sample_record; level6_record])
    /\ length rs = 3%nat
    /\ StronglySorted Z.lt (r_id <$> rs).
Proof.
  apply (get_records_all_ascending "System.evtx"
           [note_record; sample_record; level6_record]).
  apply (bool_decide_unpack _). vm_compute. exact I.
Defined.

(** ** EvtxViewModel: lookup by id *)

Lemma index_at_missing (x : Z) (l : list Z) : forall i,
  x ∉ l -> Py_list.index_at x l i = Raise ValueError.
Proof.
  induction l as [|y l IH]; intros i H; [done|].
  apply not_elem_of_cons in H as [Hne H]. cbn [Py_list.index_at].
  rewrite (proj2 (Z.eqb_neq _ _)) by done. by apply IH.
Qed.

Lemma index_at_found (x : Z) (l : list Z) : forall i,
  x ∈ l ->
  exists row, Py_list.index_at x l i = Ok row /\ i <= row /\
              l !! Z.to_nat (row - i) = Some x.
Proof.
  induction l as [|y l IH]; intros i H; [by apply elem_of_nil in H|].
  cbn [Py_list.index_at]. destruct (Z.eqb_spec x y) as [->|Hne].
  - exists i. rewrite Z.sub_diag. split; [done|]. split; [lia | done].
  - apply elem_of_cons in H as [?|H]; [done|].
    destruct (IH (i + 1) H) as (row & -> & Hle & Hl).
    exists row. split; [done|]. split; [lia|].
    replace (Z.to_nat (row - i)) with (S (Z.to_nat (row - (i + 1)))) by lia.
    done.
Qed.

Lemma getitem_lookup {A} (l : list A) (i : Z) (a : A) :
  0 <= i -> l !! Z.to_nat i = Some a -> Py_list.getitem l i = Ok a.
Proof.
  intros Hi Hl. unfold Py_list.getitem. cbn zeta.
  apply lookup_lt_Some in Hl as Hlt.
  rewrite !(proj2 (Z.ltb_ge i 0)) by lia.
  rewrite (proj2 (Z.leb_gt (Z.of_nat (length l)) i)) by lia.
  cbn. by rewrite Hl.
Qed.

Lemma lookup_all_Forall2 (recs : gmap Z EventRecord) (ids : list Z) :
  forall rs, lookup_all recs ids = Ok rs <->
             Forall2 (fun k r => recs !! k = Some r) ids rs.
Proof.
  induction ids as [|k ids IH]; intros rs; cbn [lookup_all].
  - split; [intros [= <-]; constructor | by inversion 1].
  - unfold dict_getitem. split.
    + destruct (recs !! k) as [r|] eqn:Hk; [|done].
      destruct (lookup_all recs ids) as [rs'|]; [|done].
      intros [= <-]. constructor; [done | by apply IH].
    + inversion 1 as [|? r ? rs' Hk Hrest]; subst. rewrite Hk.
      apply IH in Hrest. by rewrite Hrest.
Qed.

Lemma lookup_all_total (recs : gmap Z EventRecord) (ids : list Z) :
  (forall k, k ∈ ids -> is_Some (recs !! k)) ->
  exists rs, lookup_all recs ids = Ok rs.
Proof.
  induction ids as [|k ids IH]; intros H; [by eexists|].
  cbn [lookup_all]. unfold dict_getitem.
  destruct (H k) as [r ->]; [apply elem_of_cons; by left|].
  destruct IH as [rs ->]; [|by eexists].
  intros k' Hk'. apply H, elem_of_cons. by right.
Qed.

(** The record stored under an id that occurs in the input is the last
    record of the input with that id. *)
Lemma loaded_last (parsed : list RawRecord) (k : Z) :
  k ∈ (event_record_id <$> parsed) ->
  exists pre r post,
    parsed = (pre ++ r :: post) /\ event_record_id r = k /\
    (k ∉ (event_record_id <$> post)) /\
    foldl insert_record ∅ parsed !! k = Some (EventRecord_init r).
Proof.
  intros H. apply list_elem_of_split_r in H as (l1 & l2 & Heq & Hl2).
  apply fmap_app_inv in Heq as (pre & tl & -> & Htl & ->).
  symmetry in Htl. apply fmap_cons_inv in Htl as (r & post & -> & -> & ->).
  exists pre, r, post. split; [done|]. split; [done|]. split; [done|].
  by apply insert_record_last.
Qed.

Lemma loaded_absent (parsed : list RawRecord) (k : Z) :
  k ∉ (event_record_id <$> parsed) -> foldl insert_record ∅ parsed !! k = None.
Proof. intros H. by rewrite insert_record_absent. Qed.

Lemma loaded_id (parsed : list RawRecord) (k : Z) (r : EventRecord) :
  foldl insert_record ∅ parsed !! k = Some r -> r_id r = k.
Proof.
  intros H. apply insert_record_origin in H as [H | (r0 & _ & <- & ->)]; [|done].
  by rewrite lookup_empty in H.
Qed.

Lemma record_at_found_row (m : EvtxViewModel) (k : Z) :
  k ∈ m_record_ids m ->
  exists row, Py_list.index k (m_record_ids m) = Ok row /\ 0 <= row /\
              m_record_ids m !! Z.to_nat row = Some k /\
              record_at_row m row = dict_getitem (m_records m) k.
Proof.
  intros H. destruct (index_at_found k _ 0 H) as (row & Hrow & Hle & Hl).
  rewrite Z.sub_0_r in Hl. exists row. split; [done|]. split; [done|].
  split; [done|]. unfold record_at_row. by rewrite (getitem_lookup _ _ _ Hle Hl).
Qed.

(** C5 (as stated) fails: the later of two records with the id 7 is the
    one the model keeps, but no diagnostic is recorded; all that is left
    of the first is that the id is listed twice. *)
Lemma duplicate_id_not_recorded :
  let parsed := [first_seven; second_seven] in
  let m := load_data parsed (EvtxViewModel_new "System.evtx") in
  dict_getitem (m_records m) 7 = Ok (EventRecord_init second_seven)
  /\ m_record_ids m = [7; 7]
  /\ ~ (DuplicateRecordId 7 ∈ load_diagnostics parsed).
Proof.
  split; [by vm_compute|]. split; [by vm_compute|].
  unfold load_diagnostics. apply not_elem_of_nil.
Qed.

(** C5 (as amended). When the input holds two records with the same id
    and the second is the last with that id, then after the load that id
    is mapped to the second of them, the row that
    [scroll_to_record_id] finds for the id shows it too, the id sequence
    keeps the id once for each occurrence, and no diagnostic is
    recorded. *)
Theorem later_duplicate_wins (filename : string)
    (pre mid post : list RawRecord) (r1 r2 : RawRecord) :
  event_record_id r1 = event_record_id r2 ->
  event_record_id r2 ∉ (event_record_id <$> post) ->
  let parsed := pre ++ r1 :: mid ++ r2 :: post in
  let m := load_data parsed (EvtxViewModel_new filename) in
  dict_getitem (m_records m) (event_record_id r2) = Ok (EventRecord_init r2)
  /\ (exists row,
        Py_list.index (event_record_id r2) (m_record_ids m) = Ok row
        /\ record_at_row m row = Ok (EventRecord_init r2))
  /\ m_record_ids m ≡ₚ (event_record_id <$> parsed)
  /\ load_diagnostics parsed = [].
Proof.
  intros Hsame Hlast parsed m.
  assert (dict_getitem (m_records m) (event_record_id r2)
          = Ok (EventRecord_init r2)) as Hget.
  { subst m parsed. rewrite load_data_records. unfold dict_getitem.
    replace (pre ++ r1 :: mid ++ r2 :: post)
      with ((pre ++ r1 :: mid) ++ r2 :: post) by by rewrite <- app_assoc.
    by rewrite insert_record_last. }
  assert (m_record_ids m ≡ₚ (event_record_id <$> parsed)) as Hperm.
  { subst m. rewrite load_data_record_ids. apply sort_permutation. }
  split; [done|]. split; [|done].
  destruct (record_at_found_row m (event_record_id r2)) as (row & Hrow & _ & _ & Hat).
  - rewrite Hperm. subst parsed. rewrite !fmap_app, !fmap_cons, fmap_app, fmap_cons.
    set_solver.
  - exists row. by rewrite Hat.
Qed.

Lemma later_duplicate_wins_witness :
  let m := load_data [sample_record; first_seven; note_record; second_seven]
             (EvtxViewModel_new "System.evtx") in
  dict_getitem (m_records m) 7 = Ok (EventRecord_init second_seven)
  /\ (exists row, Py_list.index 7 (m_record_ids m) = Ok row
                  /\ record_at_row m row = Ok (EventRecord_init second_seven))
  /\ m_record_ids m ≡ₚ [1; 7; 3; 7]
  /\ load_diagnostics [sample_record; first_seven; note_record; second_seven] = [].
Proof.
  apply (later_duplicate_wins "System.evtx" [sample_record] [note_record] []
           first_seven second_seven).
  - reflexivity.
  - apply not_elem_of_nil.
Defined.

Lemma data_shows_id etree_XML py_int (m : EvtxViewModel) (row k : Z) (r : EventRecord) :
  0 <= row -> m_record_ids m !! Z.to_nat row = Some k ->
  m_records m !! k = Some r ->
  (EvtxViewModel_data etree_XML py_int row 0 DisplayRole m).1 = Ok (CInt (r_id r)).
Proof.
  intros Hle Hl Hk. unfold EvtxViewModel_data, index_isValid.
  rewrite (proj2 (Z.leb_le 0 row)) by done. cbn [andb negb Z.leb Z.compare].
  unfold bind, get, lift. rewrite (getitem_lookup _ _ _ Hle Hl).
  unfold dict_getitem. rewrite Hk. cbn [Py_list.getitem columns].
  unfold with_record. rewrite Hk. reflexivity.
Qed.

(** C6. Looking an id up in a loaded model. When no loaded record has the
    id, [scroll_to_record_id] only prints that it was not found and leaves
    the view as it is, and the dict holds nothing under the id. When a
    record with the id was loaded, [scroll_to_record_id] finds a row,
    highlights it and makes it current, and the record shown in that row
    is the one [get_records] lists at that position; its id is the id
    looked up, and it is the id [data] displays in the first column of
    that row. *)
Theorem lookup_by_record_id
    (etree_XML : string -> result Node) (py_int : string -> result Z)
    (filename : string) (parsed : list RawRecord)
    (v : EvtxView) (record_id : Z) :
  v_model v = load_data parsed (EvtxViewModel_new filename) ->
  (record_id ∉ (event_record_id <$> parsed) ->
     scroll_to_record_id record_id v
     = (Some ("Record ID " +:+ pretty record_id +:+ " not found"), v)
     /\ m_records (v_model v) !! record_id = None)
  /\ (record_id ∈ (event_record_id <$> parsed) ->
      exists row r rs,
        Py_list.index record_id (m_record_ids (v_model v)) = Ok row
        /\ 0 <= row
        /\ get_records (v_model v) = Ok rs
        /\ rs !! Z.to_nat row = Some r
        /\ record_at_row (v_model v) row = Ok r
        /\ r_id r = record_id
        /\ (EvtxViewModel_data etree_XML py_int row 0 DisplayRole (v_model v)).1
           = Ok (CInt record_id)
        /\ (scroll_to_record_id record_id v).1 = None
        /\ m_highlighted_row (v_model (scroll_to_record_id record_id v).2) = Some row
        /\ v_current_index (scroll_to_record_id record_id v).2 = Some (row, 0)).
Proof.
  intros Hv.
  assert (m_record_ids (v_model v) ≡ₚ (event_record_id <$> parsed)) as Hperm.
  { rewrite Hv, load_data_record_ids. apply sort_permutation. }
  assert (m_records (v_model v) = foldl insert_record ∅ parsed) as Hrecs.
  { by rewrite Hv, load_data_records. }
  split.
  - intros Hnot. split.
    + unfold scroll_to_record_id, get_evtxViewModel, Py_list.index.
      rewrite index_at_missing; [done|]. by rewrite Hperm.
    + rewrite Hrecs. by apply loaded_absent.
  - intros Hin.
    destruct (record_at_found_row (v_model v) record_id)
      as (row & Hrow & Hle & Hl & Hat); [by rewrite Hperm|].
    destruct (lookup_all_total (m_records (v_model v)) (m_record_ids (v_model v)))
      as [rs Hrs].
    { intros k Hk. rewrite Hperm in Hk. rewrite Hrecs.
      destruct (loaded_last parsed k Hk) as (? & r & ? & _ & _ & _ & ->).
      by eexists. }
    pose proof (proj1 (lookup_all_Forall2 _ _ _) Hrs) as Hall.
    destruct (Forall2_lookup_l _ _ _ _ _ Hall Hl) as (r & Hr & Hk).
    exists row, r, rs. split; [done|]. split; [done|]. split; [done|].
    split; [done|]. split; [by rewrite Hat; unfold dict_getitem; rewrite Hk|].
    assert (r_id r = record_id) as Hid
      by (rewrite Hrecs in Hk; by apply loaded_id in Hk).
    split; [done|].
    split; [by rewrite (data_shows_id _ _ _ _ _ _ Hle Hl Hk), Hid|].
    unfold scroll_to_record_id, get_evtxViewModel. rewrite Hrow.
    unfold index_isValid. rewrite (proj2 (Z.leb_le 0 row)) by done. by cbn.
Qed.

Lemma lookup_by_record_id_witness :
  let v := {| v_model := load_data [note_record; sample_record]
                           (EvtxViewModel_new "System.evtx");
              v_highlighted_row := None; v_current_index := None |} in
  scroll_to_record_id 2 v = (Some "Record ID 2 not found", v)
  /\ m_highlighted_row (v_model (scroll_to_record_id 3 v).2) = Some 1.
Proof.
  intros v.
  destruct (lookup_by_record_id sample_XML sample_int "System.evtx"
              [note_record; sample_record] v 2 eq_refl) as [Hmiss _].
  destruct (lookup_by_record_id sample_XML sample_int "System.evtx"
              [note_record; sample_record] v 3 eq_refl) as [_ Hhit].
  split.
  - apply Hmiss. apply (bool_decide_unpack _). vm_compute. exact I.
  - destruct Hhit as (row & r & rs & Hrow & _ & _ & _ & _ & _ & _ & _ & Hhl & _).
    + apply (bool_decide_unpack _). vm_compute. exact I.
    + vm_compute in Hrow. injection Hrow as <-. exact Hhl.
Defined.

(** ** The search loop *)

Section Search_facts.

Variable etree_XML : string -> result Node.
Variable text : string.
Variable checked : bool.

Lemma Provider_decoded r e l p :
  r_parsed r = false ->
  decoded_fields etree_XML (remove_pi (r_data r)) = Ok (e, l, p) ->
  EventRecord_Provider etree_XML r = (Ok (Some p), parsed_record r e l p).
Proof.
  intros Hp Hd. unfold EventRecord_Provider, bind.
  rewrite (parse_data_decoded _ _ _ _ _ Hp Hd).
  unfold attrib_getitem, dict_getitem, parsed_record. cbn.
  by rewrite lookup_insert_eq.
Qed.

Lemma EventID_decoded r e l p :
  r_parsed r = false ->
  decoded_fields etree_XML (remove_pi (r_data r)) = Ok (e, l, p) ->
  EventRecord_EventID etree_XML r = (Ok e, parsed_record r e l p).
Proof.
  intros Hp Hd. unfold EventRecord_EventID, bind.
  rewrite (parse_data_decoded _ _ _ _ _ Hp Hd).
  unfold attrib_getitem, dict_getitem, parsed_record. cbn.
  rewrite !lookup_insert_ne by done. by rewrite lookup_insert_eq.
Qed.

Lemma parsed_record_ready r e l p :
  ready etree_XML r ->
  ready etree_XML (parsed_record r e l p) /\ same_view r (parsed_record r e l p).
Proof.
  intros (Hp & Hs & Hd). unfold ready, same_view, parsed_record. cbn.
  rewrite !Hs. done.
Qed.

Lemma same_view_matches r r' :
  same_view r r' ->
  record_matches etree_XML text checked r' = record_matches etree_XML text checked r
  /\ found_entry r' = found_entry r.
Proof.
  intros (Hi & Ht & Hd). unfold record_matches, found_entry. cbn zeta.
  by rewrite Hd, Hi, Ht.
Qed.

Lemma search_condition_ready r :
  ready etree_XML r ->
  exists r',
    search_condition etree_XML text checked r
    = (Ok (record_matches etree_XML text checked r), r')
    /\ ready etree_XML r' /\ same_view r r'.
Proof.
  intros Hr. pose proof Hr as (Hp & Hs & e & l & p & Hd).
  destruct (parsed_record_ready r (Some e) l p Hr) as [Hr1 Hv1].
  set (r1 := parsed_record r (Some e) l p) in *.
  destruct (parsed_record_ready r1 (Some e) l p Hr1) as [Hr2 Hv2].
  set (r2 := parsed_record r1 (Some e) l p) in *.
  assert (decoded_fields etree_XML (remove_pi (r_data r1)) = Ok (Some e, l, p))
    as Hd1 by (subst r1; cbn; by rewrite Hs).
  assert (same_view r r2) as Hv12.
  { destruct Hv1 as (? & ? & ?), Hv2 as (? & ? & ?). repeat split; congruence. }
  unfold search_condition, record_matches, bind. cbn zeta. rewrite Hd.
  rewrite (Provider_decoded r _ _ _ Hp Hd). fold r1. unfold lift, py_in, ret.
  destruct (Py_str.contains text p); [by exists r1|].
  rewrite (EventID_decoded r1 (Some e) l p (proj1 Hr1) Hd1).
  fold r2. destruct (Py_str.contains text e); [by exists r2|].
  destruct checked; [|by exists r2].
  exists r2. split; [|done]. unfold EventRecord_data. cbn.
  subst r2 r1. cbn. by rewrite Hs.
Qed.

Lemma search_visit_ready r found :
  ready etree_XML r ->
  exists r',
    search_visit etree_XML text checked found r
    = (Ok (found ++ (if record_matches etree_XML text checked r
                     then [found_entry r] else [])), r')
    /\ ready etree_XML r' /\ same_view r r'.
Proof.
  intros Hr. destruct (search_condition_ready r Hr) as (r' & Hc & Hr' & Hv).
  exists r'. split; [|done]. unfold search_visit, bind. rewrite Hc.
  destruct (record_matches etree_XML text checked r).
  - unfold EventRecord_id, EventRecord_timestamp, ret, found_entry.
    destruct Hv as (-> & -> & _). done.
  - unfold ret. by rewrite app_nil_r.
Qed.

Lemma search_loop_ready refs : forall m found,
  all_ready etree_XML (m_records m) ->
  (forall k, k ∈ refs -> is_Some (m_records m !! k)) ->
  (search_loop etree_XML text checked refs found m).1
  = Ok (found ++ concat (hits etree_XML text checked (m_records m) <$> refs)).
Proof.
  induction refs as [|rid refs IH]; intros m found Hall Hdom.
  - cbn. by rewrite app_nil_r.
  - cbn [search_loop]. unfold bind, with_record.
    destruct (Hdom rid) as [r Hr]; [apply elem_of_cons; by left|].
    rewrite Hr.
    destruct (search_visit_ready r found (Hall _ _ Hr)) as (r' & -> & Hr' & Hv).
    rewrite IH.
    + cbn [set_records m_records fmap list_fmap concat].
      assert (hits etree_XML text checked (<[rid:=r']> (m_records m)) <$> refs
              = hits etree_XML text checked (m_records m) <$> refs) as ->.
      { apply list_fmap_ext. intros _ k _. unfold hits.
        rewrite lookup_insert. case_decide as Hk; [|done]. subst k. rewrite Hr.
        destruct (same_view_matches _ _ Hv) as [-> ->]. done. }
      unfold hits at 2. rewrite Hr. by rewrite <- app_assoc.
    + intros k x. cbn. rewrite lookup_insert. case_decide; [|apply Hall].
      by intros [= <-].
    + intros k Hk. cbn. rewrite lookup_insert. case_decide; [by eexists|].
      apply Hdom, elem_of_cons. by right.
Qed.

Lemma hits_filter recs ids : forall rs,
  lookup_all recs ids = Ok rs ->
  concat (hits etree_XML text checked recs <$> ids)
  = found_entry <$> filter (fun r => record_matches etree_XML text checked r = true) rs.
Proof.
  induction ids as [|k ids IH]; intros rs H; cbn [lookup_all] in H.
  - by injection H as <-.
  - unfold dict_getitem in H. destruct (recs !! k) as [r|] eqn:Hk; [|done].
    destruct (lookup_all recs ids) as [rs'|]; [|done]. injection H as <-.
    cbn [fmap list_fmap concat]. rewrite (IH rs' eq_refl).
    unfold hits. rewrite Hk, filter_cons.
    destruct (record_matches etree_XML text checked r); by case_decide.
Qed.

End Search_facts.

Lemma StronglySorted_fmap_filter {A} (f : A -> Z) (P : A -> Prop)
    `{forall x, Decision (P x)} (l : list A) :
  StronglySorted Z.le (f <$> l) -> StronglySorted Z.le (f <$> filter P l).
Proof.
  induction l as [|x l IH]; intros Hs; [done|].
  rewrite fmap_cons in Hs. apply StronglySorted_inv in Hs as [Hs Hx].
  rewrite filter_cons. case_decide; [|by apply IH].
  rewrite fmap_cons. constructor; [by apply IH|].
  rewrite Forall_forall in Hx |- *. intros y Hy. apply Hx.
  apply list_elem_of_fmap in Hy as (a & -> & Ha).
  apply list_elem_of_fmap. exists a. split; [done|].
  by apply list_elem_of_filter in Ha as [_ ?].
Qed.

Lemma get_records_ids (filename : string) (parsed : list RawRecord) rs :
  get_records (load_data parsed (EvtxViewModel_new filename)) = Ok rs ->
  r_id <$> rs = Py_list.sort (event_record_id <$> parsed).
Proof.
  unfold get_records. rewrite load_data_records, load_data_record_ids.
  intros H. apply lookup_all_Forall2 in H.
  induction H as [|k r ids rs' Hk _ IH]; [done|].
  rewrite fmap_cons, IH. f_equal. by apply loaded_id in Hk.
Qed.

Lemma get_records_total (filename : string) (parsed : list RawRecord) :
  exists rs, get_records (load_data parsed (EvtxViewModel_new filename)) = Ok rs.
Proof.
  unfold get_records. rewrite load_data_records, load_data_record_ids.
  apply lookup_all_total. intros k Hk. rewrite sort_permutation in Hk.
  destruct (loaded_last parsed k Hk) as (? & r & ? & _ & _ & _ & ->). by eexists.
Qed.

(** C7 (as stated) fails: with the search in the event data switched on,
    the text ["utf-8"] occurs in the raw text of the one loaded record,
    yet the search lists nothing. *)
Lemma search_misses_declaration :
  let m := load_data [sample_record] (EvtxViewModel_new "System.evtx") in
  get_records m = Ok [EventRecord_init sample_record]
  /\ Py_str.contains "utf-8" (r_data (EventRecord_init sample_record)) = true
  /\ (search_records sample_XML "utf-8" true m).1 = Ok [].
Proof. vm_compute. repeat split; reflexivity. Qed.

(** C7 (as amended). When every loaded payload can be evaluated (see
    [searchable]), the search returns, and what it returns are the id and
    timestamp of exactly those records of the enumeration for which the
    text occurs in the provider name, in the text of [EventID] or, with
    the search in the event data switched on, in the payload without its
    leading processing instruction; they come in the order of the
    enumeration, which is ascending in the record id. *)
Theorem search_lists_matching_records
    (etree_XML : string -> result Node) (filename : string)
    (parsed : list RawRecord) (text : string) (checked : bool) :
  (forall record, record ∈ parsed -> searchable etree_XML record) ->
  let m := load_data parsed (EvtxViewModel_new filename) in
  exists rs,
    get_records m = Ok rs
    /\ (search_records etree_XML text checked m).1
       = Ok (found_entry <$>
               filter (fun r => record_matches etree_XML text checked r = true) rs)
    /\ StronglySorted Z.le (r_id <$> rs)
    /\ StronglySorted Z.le
         (r_id <$> filter (fun r => record_matches etree_XML text checked r = true) rs).
Proof.
  intros Hparsed m. destruct (get_records_total filename parsed) as [rs Hrs].
  fold m in Hrs. exists rs. split; [done|].
  assert (StronglySorted Z.le (r_id <$> rs)) as Hsorted.
  { rewrite (get_records_ids _ _ _ Hrs). apply sort_strongly_sorted. }
  split; [|split; [done | by apply StronglySorted_fmap_filter]].
  unfold search_records, bind, get, lift. rewrite Hrs.
  rewrite search_loop_ready.
  - cbn [app]. f_equal. by apply hits_filter.
  - intros k r Hk. subst m. rewrite load_data_records in Hk.
    apply insert_record_origin in Hk as [Hk | (r0 & Hin & _ & ->)];
      [by rewrite lookup_empty in Hk|].
    destruct (Hparsed r0 Hin) as [Hno Hd].
    split; [done|]. split; [|done]. cbn. by rewrite (remove_pi_absent _ Hno).
  - intros k Hk. unfold get_records in Hrs. apply lookup_all_Forall2 in Hrs.
    apply list_elem_of_lookup in Hk as [i Hi].
    destruct (Forall2_lookup_l _ _ _ _ _ Hrs Hi) as (r & _ & ->). by eexists.
Qed.

Lemma search_lists_matching_records_witness :
  let m := load_data [level6_record; sample_record]
             (EvtxViewModel_new "System.evtx") in
  (search_records sample_XML "4<" true m).1
  = Ok [(1, "2024-05-01 10:00:00.000000 UTC")].
Proof.
  destruct (search_lists_matching_records sample_XML "System.evtx"
              [level6_record; sample_record] "4<" true) as (rs & Hrs & Hfound & _).
  - intros record Hin. split.
    + apply elem_of_cons in Hin as [->|Hin]; [vm_compute; reflexivity|].
      apply elem_of_cons in Hin as [->|Hin]; [vm_compute; reflexivity|].
      by apply elem_of_nil in Hin.
    + apply elem_of_cons in Hin as [->|Hin];
        [exists "7036", (Some "6"), "SCM"; vm_compute; reflexivity|].
      apply elem_of_cons in Hin as [->|Hin];
        [exists "7036", (Some "4"), "SCM"; vm_compute; reflexivity|].
      by apply elem_of_nil in Hin.
  - vm_compute in Hrs. injection Hrs as <-.
    etransitivity; [exact Hfound|]. vm_compute. reflexivity.
Defined.

(** ** Navigation in the search results *)

Lemma getitem_in_range {A} (l : list A) (i : Z) :
  0 <= i < Z.of_nat (length l) -> exists a, Py_list.getitem l i = Ok a.
Proof.
  intros Hi. destruct (l !! Z.to_nat i) as [a|] eqn:Ha.
  - exists a. apply getitem_lookup; [lia | done].
  - apply lookup_ge_None in Ha. lia.
Qed.

Lemma scroll_current_view_ok (a : nat) (w : MainWindow) (record_id : Z) :
  cur_evtx_view w = Some a -> is_Some (views w !! a) ->
  exists w', scroll_current_view record_id w = (Ok tt, w')
             /\ found w' = found w /\ cur_search_index w' = cur_search_index w
             /\ cur_evtx_view w' = Some a /\ is_Some (views w' !! a)
             /\ search_msgbox w' = search_msgbox w.
Proof.
  intros Ha [v Hv]. unfold scroll_current_view. rewrite Ha, Hv.
  destruct (scroll_to_record_id record_id v) as [line v'].
  eexists. split; [reflexivity|].
  assert (is_Some (<[a:=v']> (views w) !! a)) as Hs.
  { rewrite list_lookup_insert_eq; [by eexists|]. by eapply lookup_lt_Some. }
  destruct line; cbn; done.
Qed.

Lemma navigate_search_step (a : nat) (w : MainWindow) (b : Button) :
  navigable a w ->
  exists w',
    click b w = (Ok tt, w') /\ navigable a w' /\ found w' = found w /\
    cur_search_index w'
    = match b with
      | Previous => if cur_search_index w =? 0
                    then Z.of_nat (length (found w)) - 1
                    else cur_search_index w - 1
      | Next => if cur_search_index w =? Z.of_nat (length (found w)) - 1
                then 0 else cur_search_index w + 1
      end.
Proof.
  intros (Hne & Ha & Hv & Hbox & Hrange).
  set (n := Z.of_nat (length (found w))) in *.
  set (next := match b with
               | Previous => if cur_search_index w =? 0 then n - 1
                             else cur_search_index w - 1
               | Next => if cur_search_index w =? n - 1 then 0
                         else cur_search_index w + 1
               end).
  assert (0 <= next < n) as Hnext.
  { subst next. destruct b; [destruct (Z.eqb_spec (cur_search_index w) 0)
                            | destruct (Z.eqb_spec (cur_search_index w) (n - 1))];
      lia. }
  set (w1 := set_cur_search_index next w).
  assert (exists entry, Py_list.getitem (found w1) (cur_search_index w1) = Ok entry)
    as [entry Hentry] by (apply getitem_in_range; done).
  destruct (scroll_current_view_ok a w1 (fst entry) Ha Hv)
    as (w2 & Hscroll & Hf2 & Hc2 & Ha2 & Hv2 & Hb2).
  destruct Hbox as [box Hbox].
  exists (set_search_msgbox (search_text w2) w2).
  assert (click b w
          = (let* w := get in
             let* entry := lift (Py_list.getitem (found w) (cur_search_index w)) in
             scroll_current_view (fst entry) ;;;
             (fun w => match search_msgbox w with
                       | None => (Raise AttributeError, w)
                       | Some _ => (Ok tt, set_search_msgbox (search_text w) w)
                       end))%py w1) as ->.
  { unfold click, navigate_search, bind at 1. unfold w1, next.
    destruct b; cbn [direction_of Z.eqb Pos.eqb].
    - unfold bind at 1 2 3, get, put, ret. cbn [set_cur_search_index cur_search_index found].
      destruct (Z.ltb_spec (cur_search_index w - 1) 0),
               (Z.eqb_spec (cur_search_index w) 0); try lia; reflexivity.
    - unfold bind at 1 2 3 4, get, put, lift, py_mod.
      cbn [set_cur_search_index cur_search_index found]. fold n.
      rewrite (proj2 (Z.eqb_neq n 0)) by lia.
      destruct (Z.eqb_spec (cur_search_index w) (n - 1)) as [->|?].
      + replace (n - 1 + 1) with n by lia. by rewrite Z_mod_same_full.
      + by rewrite Z.mod_small by lia. }
  unfold bind, get, lift. rewrite Hentry, Hscroll, Hb2. cbn [w1 search_msgbox set_cur_search_index].
  rewrite Hbox. split; [done|].
  unfold navigable. cbn. rewrite Hf2, Hc2. cbn. done.
Qed.

Lemma clicks_navigable (a : nat) (bs : list Button) : forall w,
  navigable a w ->
  exists w', clicks bs w = (Ok tt, w') /\ navigable a w' /\ found w' = found w.
Proof.
  induction bs as [|b bs IH]; intros w Hw; [by exists w|].
  destruct (navigate_search_step a w b Hw) as (w1 & Hstep & Hw1 & Hf1 & _).
  destruct (IH w1 Hw1) as (w2 & Hrest & Hw2 & Hf2).
  exists w2. cbn [clicks]. unfold bind. rewrite Hstep, Hrest.
  split; [done|]. split; [done|]. congruence.
Qed.

Lemma display_search_results_navigable (a : nat) (w : MainWindow) :
  found w <> [] -> cur_evtx_view w = Some a -> is_Some (views w !! a) ->
  navigable a (display_search_results w)
  /\ found (display_search_results w) = found w
  /\ cur_search_index (display_search_results w) = 0.
Proof.
  intros Hne Ha Hv. unfold navigable, display_search_results. cbn.
  repeat split; try done. destruct (found w); [done|]. cbn. lia.
Qed.

(** C9. Once [display_search_results] has opened the message box on a
    non-empty result list of length [n], any sequence of clicks on
    Previous and Next runs without raising and leaves the position within
    [0 .. n-1] (and the list as it was); from position 0 a click on
    Previous leads to [n-1], and from position [n-1] a click on Next leads
    to 0. *)
Theorem search_position_stays_in_range (w0 : MainWindow) (a : nat)
    (bs : list Button) :
  found w0 <> [] -> cur_evtx_view w0 = Some a -> is_Some (views w0 !! a) ->
  let n := Z.of_nat (length (found w0)) in
  exists w,
    clicks bs (display_search_results w0) = (Ok tt, w)
    /\ found w = found w0
    /\ 0 <= cur_search_index w < n
    /\ (cur_search_index w = 0 ->
        cur_search_index (click Previous w).2 = n - 1)
    /\ (cur_search_index w = n - 1 ->
        cur_search_index (click Next w).2 = 0).
Proof.
  intros Hne Ha Hv n.
  destruct (display_search_results_navigable a w0 Hne Ha Hv) as (Hnav & Hf & _).
  destruct (clicks_navigable a bs _ Hnav) as (w & Hrun & Hw & Hfw).
  exists w. rewrite Hf in Hfw. split; [done|]. split; [done|].
  pose proof Hw as (_ & _ & _ & _ & Hrange). rewrite Hfw in Hrange.
  split; [done|]. split; intros Hpos.
  - destruct (navigate_search_step a w Previous Hw) as (w' & Hc & _ & _ & Hi).
    rewrite Hc. cbn [snd]. rewrite Hi, Hpos, Hfw. reflexivity.
  - destruct (navigate_search_step a w Next Hw) as (w' & Hc & _ & _ & Hi).
    rewrite Hc. cbn [snd]. rewrite Hi, Hpos, Hfw. fold n. by rewrite Z.eqb_refl.
Qed.

Lemma search_position_stays_in_range_witness :
  exists w,
    clicks [Next; Next; Previous; Previous; Previous]
      (display_search_results searched) = (Ok tt, w)
    /\ found w = found searched
    /\ 0 <= cur_search_index w < 2.
Proof.
  destruct (search_position_stays_in_range searched 0%nat
              [Next; Next; Previous; Previous; Previous])
    as (w & Hrun & Hfound & Hrange & _).
  - discriminate.
  - reflexivity.
  - by eexists.
  - exists w. split; [done|]. split; done.
Defined.

(** ** Opening a file that is already open *)

(** What holds in every state: the map of open files, the pages of the tab
    widget and the store of views are left as they are, and the stored
    index becomes current whenever some page has that index. *)
Lemma open_file_already_open PyEvtxParser_records Path_name
    (filename : string) (index : Z) (w : MainWindow) :
  files w !! filename = Some index -> index <> -1 ->
  exists w',
    open_file PyEvtxParser_records Path_name filename w = (Ok tt, w')
    /\ files w' = files w
    /\ tabs (tab_widget w') = tabs (tab_widget w)
    /\ views w' = views w
    /\ currentIndex (tab_widget w')
       = (if valid_tab (tab_widget w) index then index
          else currentIndex (tab_widget w)).
Proof.
  intros Hf Hi. unfold open_file. rewrite Hf.
  rewrite (proj2 (Z.eqb_neq index (-1))) by done.
  eexists. split; [reflexivity|]. unfold setCurrentIndex. cbn.
  destruct (valid_tab (tab_widget w) index); done.
Qed.

(** C10 (the code departs from it). Three files are opened and the first
    tab is closed; the map still holds the index 1 for the second file,
    whose page has moved to index 0. Opening the second file again leaves
    the map and the pages as they are, but the page that is current
    afterwards shows the third file, not the second. *)
Theorem reopen_selects_stale_index :
  let w := first_closed in
  let out := open_file sample_parser sample_name security_evtx w in
  files w !! security_evtx = Some 1
  /\ (tab_file w <$> tabs (tab_widget w))
     = [Some security_evtx; Some application_evtx]
  /\ out.1 = Ok tt
  /\ files out.2 = files w
  /\ tabs (tab_widget out.2) = tabs (tab_widget w)
  /\ currentIndex (tab_widget out.2) = 1
  /\ current_file out.2 = Some application_evtx.
Proof.
  cbv zeta. repeat (split; [vm_compute; reflexivity|]). vm_compute. reflexivity.
Qed.

(** * Further properties *)

(** ** XmlElement: keys, repeated names, children that cannot be wrapped *)

Lemma brace_split (s : string) :
  occurs "}" s = true ->
  exists pre b, s = pre +:+ String "}" b /\ occurs "}" b = false.
Proof.
  induction s as [|a s IH]; [done|]. cbn [occurs]. intros H.
  destruct (occurs "}" s) eqn:Hs.
  - destruct (IH eq_refl) as (pre & b & -> & Hb).
    exists (String a pre), b. by rewrite append_cons.
  - rewrite orb_false_r in H. apply Ascii.eqb_eq in H as ->.
    exists "", s. by rewrite append_nil.
Qed.

(** X1. The key under which a child is stored never holds a ['}'], is what is
    left of the tag when a leading part is cut off, and is its own key. *)
Theorem local_name_has_no_brace (tag : string) :
  occurs "}" (local_name tag) = false
  /\ string_suffix (local_name tag) tag
  /\ local_name (local_name tag) = local_name tag.
Proof.
  assert (occurs "}" (local_name tag) = false /\ string_suffix (local_name tag) tag)
    as [Hno Hsuf].
  { destruct (occurs "}" tag) eqn:Ht.
    - destruct (brace_split tag Ht) as (pre & b & -> & Hb).
      rewrite (local_name_qualified _ _ Hb). split; [done|].
      exists (pre +:+ "}"). clear. induction pre as [|a pre IH]; [done|].
      by rewrite !append_cons, IH.
    - rewrite (local_name_plain _ Ht). split; [done|]. by exists "". }
  split; [done|]. split; [done|]. by apply local_name_plain.
Qed.

Section Children_facts.

Variable init : Node -> result XmlElement.

Lemma children_untouched cs : forall acc m k,
  XmlElement_children init cs acc = Ok m ->
  (forall c t, c ∈ cs -> node_tag c = TagName t -> local_name t <> k) ->
  m !! k = acc !! k.
Proof.
  induction cs as [|c cs IH]; intros acc m k H Hk; simpl in H.
  - by inversion H.
  - destruct (node_tag c) as [t|] eqn:Ht; [|done].
    destruct (init c) as [x|]; [|done].
    rewrite (IH _ _ k H).
    + apply lookup_insert_ne. apply (Hk c); [apply elem_of_cons; by left | done].
    + intros c' t' Hin. apply Hk, elem_of_cons. by right.
Qed.

Lemma children_last_wins pre c post : forall acc m t,
  XmlElement_children init (pre ++ c :: post) acc = Ok m ->
  node_tag c = TagName t ->
  (forall c' t', c' ∈ post -> node_tag c' = TagName t' ->
                 local_name t' <> local_name t) ->
  exists x, init c = Ok x /\ m !! local_name t = Some x.
Proof.
  induction pre as [|c0 pre IH]; intros acc m t H Ht Hpost; simpl in H.
  - rewrite Ht in H. destruct (init c) as [x|]; [|done].
    exists x. split; [done|].
    rewrite (children_untouched _ _ _ _ H Hpost). apply lookup_insert_eq.
  - destruct (node_tag c0) as [t0|]; [|done].
    destruct (init c0) as [x0|]; [|done]. by eapply IH.
Qed.

Lemma children_raise pre c post (e : PyExc) : forall acc,
  (forall c', c' ∈ pre -> exists t x, node_tag c' = TagName t /\ init c' = Ok x) ->
  (node_tag c = TagFactory /\ e = AttributeError
   \/ exists t, node_tag c = TagName t /\ init c = Raise e) ->
  XmlElement_children init (pre ++ c :: post) acc = Raise e.
Proof.
  induction pre as [|c0 pre IH]; intros acc Hpre Hc; simpl.
  - destruct Hc as [[-> ->] | (t & -> & ->)]; done.
  - destruct (Hpre c0) as (t0 & x0 & -> & ->); [apply elem_of_cons; by left|].
    apply IH; [|done]. intros c' Hin. apply Hpre, elem_of_cons. by right.
Qed.

End Children_facts.

(** X2. When several children have the same name once the namespace is cut
    off, [__getitem__] returns the wrapper of the last of them. *)
Theorem XmlElement_last_child_wins (root : Node) (x : XmlElement)
    (pre post : list Node) (c : Node) (t : string) :
  XmlElement_init root = Ok x ->
  node_children root = pre ++ c :: post ->
  node_tag c = TagName t ->
  (forall c' t', c' ∈ post -> node_tag c' = TagName t' ->
                 local_name t' <> local_name t) ->
  exists xc, XmlElement_init c = Ok xc /\ XmlElement_getitem x (local_name t) = Ok xc.
Proof.
  rewrite XmlElement_init_unfold. intros Hx Hcs Ht Hpost.
  destruct (XmlElement_children _ _ _) as [m|] eqn:Hm; [|done].
  injection Hx as <-. rewrite Hcs in Hm.
  destruct (children_last_wins _ _ _ _ _ _ _ Hm Ht Hpost) as (xc & Hxc & Hk).
  exists xc. split; [done|]. unfold XmlElement_getitem, dict_getitem. cbn.
  by rewrite Hk.
Qed.

(** X3. Wrapping an element fails as soon as one child cannot be wrapped: a
    child whose tag is not a string (a comment or a processing
    instruction) makes [__init__] raise [AttributeError], and an exception
    raised while a child is wrapped is raised for the parent too. *)
Theorem XmlElement_init_child_fails (root : Node) (pre post : list Node)
    (c : Node) (e : PyExc) :
  node_children root = pre ++ c :: post ->
  (forall c', c' ∈ pre ->
     exists t x, node_tag c' = TagName t /\ XmlElement_init c' = Ok x) ->
  (node_tag c = TagFactory /\ e = AttributeError
   \/ exists t, node_tag c = TagName t /\ XmlElement_init c = Raise e) ->
  XmlElement_init root = Raise e.
Proof.
  intros Hcs Hpre Hc. rewrite XmlElement_init_unfold, Hcs.
  by rewrite (children_raise _ _ _ _ e ∅ Hpre Hc).
Qed.

Lemma XmlElement_last_child_wins_witness :
  exists x xc,
    XmlElement_init twins_node = Ok x
    /\ XmlElement_getitem x "Data" = Ok xc
    /\ XmlElement_text xc = Some "second".
Proof.
  destruct (XmlElement_init twins_node) as [x|] eqn:Hx;
    [|vm_compute in Hx; discriminate].
  destruct (XmlElement_last_child_wins twins_node x [first_twin] [] second_twin
              "{urn:b}Data" Hx eq_refl eq_refl) as (xc & Hxc & Hget).
  - intros c' t' Hin. by apply elem_of_nil in Hin.
  - exists x, xc. split; [done|]. split; [exact Hget|].
    vm_compute in Hxc. by injection Hxc as <-.
Defined.

Lemma XmlElement_init_child_fails_witness :
  XmlElement_init commented_node = Raise AttributeError.
Proof.
  apply (XmlElement_init_child_fails commented_node
           [mkNode (TagName "System") ∅ None []] [first_twin] comment_node).
  - reflexivity.
  - intros c' Hin. apply list_elem_of_singleton in Hin as ->.
    exists "System". eexists. split; reflexivity.
  - left. split; reflexivity.
Defined.

(** ** EventRecord: what reads keep, return and raise *)

Lemma append_assoc (a b c : string) : (a +:+ b) +:+ c = a +:+ (b +:+ c).
Proof. induction a as [|x a IH]; [done|]. by rewrite !append_cons, IH. Qed.

Lemma string_suffix_trans (a b c : string) :
  string_suffix a b -> string_suffix b c -> string_suffix a c.
Proof.
  intros [p ->] [q ->]. exists (q +:+ p). by rewrite append_assoc.
Qed.

Lemma skip_suffix (n : nat) : forall s, string_suffix (Py_str.skip n s) s.
Proof.
  induction n as [|n IH]; intros s; [by exists ""|].
  destruct s as [|a s]; [by exists ""|]. cbn [Py_str.skip].
  destruct (IH s) as [pre Hpre]. exists (String a pre).
  by rewrite append_cons, <- Hpre.
Qed.

Lemma remove_pi_suffix (d : string) : string_suffix (remove_pi d) d.
Proof.
  unfold remove_pi. cbn zeta. destruct (_ =? -1); [by exists ""|].
  apply skip_suffix.
Qed.

(** X4. Whatever properties are read, in whatever order and however often,
    the record keeps its id and its timestamp, and the text [data] returns
    is what is left of the original text when a leading part is cut off. *)
Theorem reads_keep_id_and_timestamp
    (etree_XML : string -> result Node) (py_int : string -> result Z)
    (record : RawRecord) (fs : list Field) :
  let r := after_reads etree_XML py_int fs (EventRecord_init record) in
  (EventRecord_id r).1 = Ok (event_record_id record)
  /\ (EventRecord_timestamp r).1 = Ok (timestamp record)
  /\ exists d, (EventRecord_data r).1 = Ok d /\ string_suffix d (data record).
Proof.
  cbn zeta. cbn [EventRecord_id EventRecord_timestamp EventRecord_data fst].
  change (event_record_id record) with (r_id (EventRecord_init record)).
  change (timestamp record) with (r_timestamp (EventRecord_init record)).
  change (data record) with (r_data (EventRecord_init record)).
  generalize (EventRecord_init record). clear record.
  induction fs as [|f fs IH]; intros r.
  - split; [done|]. split; [done|]. exists (r_data r). split; [done | by exists ""].
  - cbn [after_reads]. rewrite read_field_state.
    destruct (parse_data_frame etree_XML r) as (Hi & Ht & _ & Hd & _).
    destruct (IH (parse_data etree_XML r).2) as (-> & -> & d & Hdd & Hsuf).
    rewrite Hi, Ht. split; [done|]. split; [done|]. exists d. split; [done|].
    eapply string_suffix_trans; [exact Hsuf|]. rewrite Hd.
    destruct (r_parsed r); [by exists "" | apply remove_pi_suffix].
Qed.

Lemma after_reads_steady etree_XML py_int (e l : option string) (p : string) fs :
  forall r,
    r_parsed r = false ->
    remove_pi (remove_pi (r_data r)) = remove_pi (r_data r) ->
    decoded_fields etree_XML (remove_pi (r_data r)) = Ok (e, l, p) ->
    let r' := after_reads etree_XML py_int fs r in
    r_parsed r' = false
    /\ remove_pi (r_data r') = remove_pi (r_data r).
Proof.
  induction fs as [|f fs IH]; intros r Hp Hs Hd; [done|].
  cbn zeta. cbn [after_reads]. rewrite read_field_state.
  rewrite (parse_data_decoded _ _ _ _ _ Hp Hd). cbn [snd].
  destruct (IH (parsed_record r e l p)) as [Hp' Hd']; cbn; rewrite ?Hs; try done.
  split; [done|]. rewrite Hd'. cbn. by rewrite Hs.
Qed.

(** X5. For a payload that decodes and holds no ["?>"] behind its leading
    processing instruction, [EventID] and [Provider] return the text of
    [System/EventID] and the [Name] of [System/Provider], and they return
    the same after any other reads have been made before. *)
Theorem fields_return_decoded
    (etree_XML : string -> result Node) (py_int : string -> result Z)
    (record : RawRecord) (e l : option string) (p : string) (fs : list Field) :
  Py_str.contains "?>" (remove_pi (data record)) = false ->
  decoded_fields etree_XML (remove_pi (data record)) = Ok (e, l, p) ->
  let r := after_reads etree_XML py_int fs (EventRecord_init record) in
  (EventRecord_EventID etree_XML r).1 = Ok e
  /\ (EventRecord_Provider etree_XML r).1 = Ok (Some p).
Proof.
  intros Hno Hd r.
  assert (remove_pi (remove_pi (data record)) = remove_pi (data record)) as Hs
    by by apply remove_pi_absent.
  destruct (after_reads_steady etree_XML py_int e l p fs
              (EventRecord_init record) eq_refl Hs Hd) as [Hp Hr].
  fold r in Hp, Hr. cbn in Hr.
  assert (decoded_fields etree_XML (remove_pi (r_data r)) = Ok (e, l, p)) as Hd'
    by by rewrite Hr.
  by rewrite (EventID_decoded _ _ _ _ _ Hp Hd'), (Provider_decoded _ _ _ _ _ Hp Hd').
Qed.

Lemma parse_data_raises etree_XML (r : EventRecord) (e : PyExc) :
  r_parsed r = false ->
  decoded_fields etree_XML (remove_pi (r_data r)) = Raise e ->
  (parse_data etree_XML r).1 = Raise e.
Proof.
  intros Hp. unfold decoded_fields, remove_pi.
  py_unfold. rewrite Hp. cbn zeta.
  destruct (Py_str.find "?>" (r_data r) =? -1);
    cbn -[Py_str.find Py_str.slice_from];
    repeat case_match; simplify_eq; intros; simplify_eq; cbn; done.
Qed.

(** X6. The three properties stand and fall together: when the payload cannot
    be parsed, or the tree lacks [System], [EventID], [Level], [Provider]
    or the [Name] attribute, every one of the three raises that
    exception, also the ones whose own element is present. *)
Theorem fields_raise_together
    (etree_XML : string -> result Node) (py_int : string -> result Z)
    (r : EventRecord) (e : PyExc) (f : Field) :
  r_parsed r = false ->
  decoded_fields etree_XML (remove_pi (r_data r)) = Raise e ->
  (read_field etree_XML py_int f r).1 = Raise e.
Proof.
  intros Hp Hd. pose proof (parse_data_raises etree_XML r e Hp Hd) as H.
  destruct f; unfold read_field, EventRecord_EventID, EventRecord_Provider,
    EventRecord_Level, bind;
    destruct (parse_data etree_XML r) as [[[]|e'] r']; cbn in H; by simplify_eq.
Qed.

(** X7. [Level] never returns anything but one of the six names. *)
Theorem Level_returns_a_name
    (etree_XML : string -> result Node) (py_int : string -> result Z)
    (r : EventRecord) (s : string) :
  (EventRecord_Level etree_XML py_int r).1 = Ok s ->
  s ∈ ["LogAlways"; "Critical"; "Error"; "Warning"; "Informational"; "Verbose"].
Proof.
  unfold EventRecord_Level, bind, attrib_getitem, lift.
  destruct (parse_data etree_XML r) as [[[]|?] r']; [|done].
  destruct (dict_getitem (r_attrib r') "Level") as [v|]; [|done].
  destruct (int_of py_int v) as [n|]; [|done]. cbn.
  unfold dict_getitem. rewrite levels_lookup.
  repeat (destruct (_ =? _); [intros [= <-]; rewrite !elem_of_cons; tauto|]).
  done.
Qed.

(** X8. [Level] on a payload that decodes: an empty [Level] element makes it
    raise [TypeError], and a text that [int] rejects makes it raise what
    [int] raises. *)
Theorem Level_conversion_errors
    (etree_XML : string -> result Node) (py_int : string -> result Z)
    (r : EventRecord) (e l : option string) (p : string) :
  r_parsed r = false ->
  decoded_fields etree_XML (remove_pi (r_data r)) = Ok (e, l, p) ->
  (l = None -> (EventRecord_Level etree_XML py_int r).1 = Raise TypeError)
  /\ (forall t err, l = Some t -> py_int t = Raise err ->
        (EventRecord_Level etree_XML py_int r).1 = Raise err).
Proof.
  intros Hp Hd. unfold EventRecord_Level, bind.
  rewrite (parse_data_decoded _ _ _ _ _ Hp Hd).
  unfold attrib_getitem, dict_getitem, lift, parsed_record. cbn.
  rewrite lookup_insert_ne by done. rewrite lookup_insert_eq. cbn.
  split; [by intros ->|]. intros t err -> Ht. cbn. by rewrite Ht.
Qed.

Lemma fields_return_decoded_witness :
  let r := after_reads sample_XML sample_int [FLevel; FProvider; FEventID]
             (EventRecord_init sample_record) in
  (EventRecord_EventID sample_XML r).1 = Ok (Some "7036")
  /\ (EventRecord_Provider sample_XML r).1 = Ok (Some "SCM").
Proof.
  apply (fields_return_decoded sample_XML sample_int sample_record
           (Some "7036") (Some "4") "SCM"); reflexivity.
Defined.

Lemma fields_raise_together_witness :
  (EventRecord_EventID edge_XML (EventRecord_init (edge_record 4 no_provider_text))).1
  = Raise KeyError.
Proof.
  apply (fields_raise_together edge_XML sample_int
           (EventRecord_init (edge_record 4 no_provider_text)) KeyError FEventID);
    reflexivity.
Defined.

Lemma Level_returns_a_name_witness :
  "Informational"
  ∈ ["LogAlways"; "Critical"; "Error"; "Warning"; "Informational"; "Verbose"].
Proof.
  apply (Level_returns_a_name sample_XML sample_int (EventRecord_init sample_record)).
  reflexivity.
Defined.

Lemma Level_conversion_errors_witness :
  (EventRecord_Level edge_XML sample_int
     (EventRecord_init (edge_record 5 empty_level_text))).1 = Raise TypeError
  /\ (EventRecord_Level edge_XML sample_int
        (EventRecord_init (edge_record 6 worded_level_text))).1 = Raise ValueError.
Proof.
  split.
  - apply (proj1 (Level_conversion_errors edge_XML sample_int
                    (EventRecord_init (edge_record 5 empty_level_text))
                    (Some "1") None "SCM" eq_refl eq_refl)).
    reflexivity.
  - apply (proj2 (Level_conversion_errors edge_XML sample_int
                    (EventRecord_init (edge_record 6 worded_level_text))
                    (Some "1") (Some "high") "SCM" eq_refl eq_refl) "high");
      reflexivity.
Defined.

(** ** EvtxViewModel: what a load builds, whatever the ids *)

Lemma foldl_load_record_chunks parsed : forall m,
  m_chunks (foldl load_record m parsed) = m_chunks m.
Proof. induction parsed as [|r parsed IH]; intros m; [done|]. cbn. by rewrite IH. Qed.

Lemma loaded_keys (parsed : list RawRecord) (k : Z) :
  is_Some (foldl insert_record ∅ parsed !! k) <-> k ∈ (event_record_id <$> parsed).
Proof.
  split.
  - intros [r Hr]. destruct (decide (k ∈ (event_record_id <$> parsed))); [done|].
    by rewrite loaded_absent in Hr.
  - intros Hk. destruct (loaded_last parsed k Hk) as (? & r & ? & _ & _ & _ & ->).
    by eexists.
Qed.

(** X9. After a load the table has one row for every record the parser
    yielded, repeated ids included; the id sequence holds the ids of the
    input in ascending order, each as often as it came; and the dict has
    an entry for exactly the ids of the input. *)
Theorem load_data_rows_and_keys (filename : string) (parsed : list RawRecord) :
  let m := load_data parsed (EvtxViewModel_new filename) in
  rowCount m = Z.of_nat (length parsed)
  /\ StronglySorted Z.le (m_record_ids m)
  /\ m_record_ids m ≡ₚ (event_record_id <$> parsed)
  /\ (forall k, is_Some (m_records m !! k) <-> k ∈ (event_record_id <$> parsed)).
Proof.
  cbn zeta. unfold rowCount. rewrite load_data_records, load_data_record_ids.
  split; [|split; [apply sort_strongly_sorted | split;
    [apply sort_permutation | apply loaded_keys]]].
  by rewrite sort_permutation, length_fmap.
Qed.

(** X10. [get_records] on a loaded model never raises; it lists one record for
    every row, in ascending order of the ids, and each listed record is
    the last one of the input with its id, as it was built. *)
Theorem get_records_lists_last_loaded (filename : string) (parsed : list RawRecord) :
  exists rs,
    get_records (load_data parsed (EvtxViewModel_new filename)) = Ok rs
    /\ length rs = length parsed
    /\ StronglySorted Z.le (r_id <$> rs)
    /\ (forall r, r ∈ rs ->
          exists pre raw post,
            parsed = pre ++ raw :: post /\ r = EventRecord_init raw /\
            event_record_id raw ∉ (event_record_id <$> post)).
Proof.
  destruct (get_records_total filename parsed) as [rs Hrs]. exists rs.
  pose proof (get_records_ids _ _ _ Hrs) as Hids.
  split; [done|]. split; [|split].
  - rewrite <- (length_fmap r_id), Hids, sort_permutation. apply length_fmap.
  - rewrite Hids. apply sort_strongly_sorted.
  - intros r Hr. unfold get_records in Hrs.
    rewrite load_data_records, load_data_record_ids in Hrs.
    apply lookup_all_Forall2 in Hrs.
    apply list_elem_of_lookup in Hr as [i Hi].
    destruct (Forall2_lookup_r _ _ _ _ _ Hrs Hi) as (k & Hk & Hkr).
    apply list_elem_of_lookup_2 in Hk. rewrite sort_permutation in Hk.
    destruct (loaded_last parsed k Hk) as (pre & raw & post & -> & <- & Hlast & Hl).
    exists pre, raw, post. split; [done|]. split; [congruence | done].
Qed.

Lemma load_data_rest parsed m :
  m_filename (load_data parsed m) = m_filename m
  /\ m_chunks (load_data parsed m) = m_chunks m
  /\ m_highlighted_row (load_data parsed m) = m_highlighted_row m.
Proof.
  unfold load_data. cbn. rewrite foldl_load_record_chunks.
  by destruct (foldl_load_record parsed m) as (_ & _ & -> & ->).
Qed.

Lemma EvtxViewModel_eq (m m' : EvtxViewModel) :
  m_filename m = m_filename m' -> m_chunks m = m_chunks m' ->
  m_records m = m_records m' -> m_record_ids m = m_record_ids m' ->
  m_highlighted_row m = m_highlighted_row m' -> m = m'.
Proof. destruct m, m'. cbn. by intros -> -> -> -> ->. Qed.

Lemma NoDup_fmap_eq {A B} (f : A -> B) (l : list A) (x y : A) :
  NoDup (f <$> l) -> x ∈ l -> y ∈ l -> f x = f y -> x = y.
Proof.
  induction l as [|a l IH]; intros Hnd Hx Hy Hf; [by apply elem_of_nil in Hx|].
  rewrite fmap_cons in Hnd. apply NoDup_cons in Hnd as [Ha Hnd].
  apply elem_of_cons in Hx as [->|Hx], Hy as [->|Hy]; [done| | |by apply IH].
  - exfalso. apply Ha. rewrite Hf. apply list_elem_of_fmap. by exists y.
  - exfalso. apply Ha. rewrite <- Hf. apply list_elem_of_fmap. by exists x.
Qed.

(** X11. When the ids are pairwise distinct, the order in which the parser
    yields the records does not matter: every rearrangement of the input
    loads to the same model. *)
Theorem load_data_order_irrelevant (filename : string)
    (parsed parsed' : list RawRecord) :
  NoDup (event_record_id <$> parsed) ->
  parsed ≡ₚ parsed' ->
  load_data parsed (EvtxViewModel_new filename)
  = load_data parsed' (EvtxViewModel_new filename).
Proof.
  intros Hnd Hperm.
  assert (foldl insert_record ∅ parsed = foldl insert_record ∅ parsed') as Hrecs.
  { apply map_eq. intros k.
    destruct (decide (k ∈ (event_record_id <$> parsed))) as [Hk|Hk].
    - destruct (loaded_last parsed k Hk) as (p1 & r1 & q1 & E1 & Hid1 & _ & ->).
      assert (k ∈ (event_record_id <$> parsed')) as Hk' by by rewrite <- Hperm.
      destruct (loaded_last parsed' k Hk') as (p2 & r2 & q2 & E2 & Hid2 & _ & ->).
      do 2 f_equal. apply (NoDup_fmap_eq event_record_id parsed); [done| | |congruence].
      + rewrite E1. apply elem_of_app. right. apply elem_of_cons. by left.
      + rewrite Hperm, E2. apply elem_of_app. right. apply elem_of_cons. by left.
    - rewrite !loaded_absent; [done | by rewrite <- Hperm | done]. }
  assert (Py_list.sort (event_record_id <$> parsed)
          = Py_list.sort (event_record_id <$> parsed')) as Hids.
  { apply (StronglySorted_unique Z.le); try apply sort_strongly_sorted.
    by rewrite !sort_permutation, Hperm. }
  destruct (load_data_rest parsed (EvtxViewModel_new filename)) as (F1 & C1 & L1).
  destruct (load_data_rest parsed' (EvtxViewModel_new filename)) as (F2 & C2 & L2).
  apply EvtxViewModel_eq; [congruence | congruence | | | congruence].
  - by rewrite !load_data_records.
  - by rewrite !load_data_record_ids.
Qed.

Lemma load_data_order_irrelevant_witness :
  load_data [note_record; sample_record; level6_record]
    (EvtxViewModel_new "System.evtx")
  = load_data [sample_record; level6_record; note_record]
      (EvtxViewModel_new "System.evtx").
Proof.
  apply load_data_order_irrelevant.
  - apply (bool_decide_unpack _). vm_compute. exact I.
  - apply (Permutation_cons_append [sample_record; level6_record] note_record).
Defined.

(** ** EvtxViewModel: the cells of the table *)

Lemma getitem_beyond {A} (l : list A) (i : Z) :
  Z.of_nat (length l) <= i -> Py_list.getitem l i = Raise IndexError.
Proof.
  intros Hi. unfold Py_list.getitem. cbn zeta.
  rewrite !(proj2 (Z.ltb_ge i 0)) by lia.
  by rewrite (proj2 (Z.leb_le (Z.of_nat (length l)) i)) by lia.
Qed.

Lemma set_records_same (m : EvtxViewModel) (k : Z) (r : EventRecord) :
  m_records m !! k = Some r -> set_records (<[k := r]> (m_records m)) m = m.
Proof. intros H. rewrite (insert_id _ _ _ H). by destruct m. Qed.

Lemma data_display_cell etree_XML py_int (m : EvtxViewModel) (row column : Z)
    (k : Z) (r : EventRecord) (col : Column) :
  0 <= row -> 0 <= column ->
  m_record_ids m !! Z.to_nat row = Some k -> m_records m !! k = Some r ->
  columns !! Z.to_nat column = Some col ->
  EvtxViewModel_data etree_XML py_int row column DisplayRole m
  = ((column_get etree_XML py_int col r).1,
     set_records (<[k := (column_get etree_XML py_int col r).2]> (m_records m)) m).
Proof.
  intros Hrow Hcol Hl Hk Hc. unfold EvtxViewModel_data, index_isValid.
  rewrite (proj2 (Z.leb_le 0 row)), (proj2 (Z.leb_le 0 column)) by done.
  cbn [andb negb]. unfold bind, get, lift.
  rewrite (getitem_lookup _ _ _ Hrow Hl). unfold dict_getitem at 1. rewrite Hk.
  rewrite (getitem_lookup _ _ _ Hcol Hc). unfold with_record. rewrite Hk.
  by destruct (column_get etree_XML py_int col r).
Qed.

(** X12. [data] outside the table: for a negative row or column it returns an
    invalid [QVariant] whatever the role; for the display role it raises
    [IndexError] at a row behind the last one, and at a column behind the
    last one of an existing row; the model is left as it is each time. *)
Theorem data_outside_the_table
    (etree_XML : string -> result Node) (py_int : string -> result Z)
    (m : EvtxViewModel) (row column : Z) :
  (row < 0 \/ column < 0 ->
     forall role,
       EvtxViewModel_data etree_XML py_int row column role m
       = (Ok QVariant_invalid, m))
  /\ (0 <= column -> rowCount m <= row ->
      EvtxViewModel_data etree_XML py_int row column DisplayRole m
      = (Raise IndexError, m))
  /\ (0 <= row -> columnCount m <= column ->
      (exists r, record_at_row m row = Ok r) ->
      EvtxViewModel_data etree_XML py_int row column DisplayRole m
      = (Raise IndexError, m)).
Proof.
  unfold EvtxViewModel_data, index_isValid, rowCount, columnCount.
  split; [|split].
  - intros Hneg role.
    assert ((0 <=? row) && (0 <=? column) = false) as ->; [|done].
    apply andb_false_iff. destruct Hneg; [left | right]; by apply Z.leb_gt.
  - intros Hcol Hrow.
    rewrite (proj2 (Z.leb_le 0 row)), (proj2 (Z.leb_le 0 column)) by lia.
    cbn [andb negb]. unfold bind, get, lift. by rewrite getitem_beyond.
  - intros Hrow Hcol [r Hr].
    rewrite (proj2 (Z.leb_le 0 row)), (proj2 (Z.leb_le 0 column)) by lia.
    cbn [andb negb]. unfold bind, get, lift. unfold record_at_row in Hr.
    destruct (Py_list.getitem (m_record_ids m) row) as [k|]; [|done].
    rewrite Hr. by rewrite getitem_beyond.
Qed.

Lemma data_outside_the_table_witness :
  let m := load_data [sample_record; level6_record] (EvtxViewModel_new "System.evtx") in
  EvtxViewModel_data sample_XML sample_int 2 0 DisplayRole m = (Raise IndexError, m)
  /\ EvtxViewModel_data sample_XML sample_int 1 6 DisplayRole m = (Raise IndexError, m)
  /\ EvtxViewModel_data sample_XML sample_int (-1) 0 DisplayRole m
     = (Ok QVariant_invalid, m).
Proof.
  intros m.
  destruct (data_outside_the_table sample_XML sample_int m 2 0) as (_ & Hrow & _).
  destruct (data_outside_the_table sample_XML sample_int m 1 6) as (_ & _ & Hcol).
  destruct (data_outside_the_table sample_XML sample_int m (-1) 0) as (Hneg & _).
  split; [|split].
  - apply Hrow; [lia | by vm_compute].
  - apply Hcol; [lia | by vm_compute | by eexists].
  - apply Hneg. left. lia.
Defined.

Lemma column_get_state etree_XML py_int (col : Column) (r : EventRecord) :
  col = ColProvider \/ col = ColEventID \/ col = ColLevel ->
  (column_get etree_XML py_int col r).2 = (parse_data etree_XML r).2.
Proof.
  intros [-> | [-> | ->]]; unfold column_get, bind, ret.
  - rewrite <- (read_field_state etree_XML py_int FProvider r). cbn [read_field].
    by destruct (EventRecord_Provider etree_XML r) as [[?|?] ?].
  - rewrite <- (read_field_state etree_XML py_int FEventID r). cbn [read_field].
    by destruct (EventRecord_EventID etree_XML r) as [[?|?] ?].
  - rewrite <- (read_field_state etree_XML py_int FLevel r). cbn [read_field].
    unfold bind, ret.
    by destruct (EventRecord_Level etree_XML py_int r) as [[?|?] ?].
Qed.

(** X13. Displaying the [ID], [TimeCreated] or [Data] cell of a row shows the
    id, the timestamp and the stored text of the record of that row and
    leaves the model as it is; displaying the [Provider], [EventID] or
    [Level] cell runs [__parse_data] on that record and on no other. *)
Theorem data_cells_and_their_effect
    (etree_XML : string -> result Node) (py_int : string -> result Z)
    (m : EvtxViewModel) (row k : Z) (r : EventRecord) :
  0 <= row ->
  m_record_ids m !! Z.to_nat row = Some k -> m_records m !! k = Some r ->
  EvtxViewModel_data etree_XML py_int row 0 DisplayRole m = (Ok (CInt (r_id r)), m)
  /\ EvtxViewModel_data etree_XML py_int row 1 DisplayRole m
     = (Ok (CStr (r_timestamp r)), m)
  /\ EvtxViewModel_data etree_XML py_int row 5 DisplayRole m
     = (Ok (CStr (r_data r)), m)
  /\ (forall column, 2 <= column <= 4 ->
        (EvtxViewModel_data etree_XML py_int row column DisplayRole m).2
        = set_records (<[k := (parse_data etree_XML r).2]> (m_records m)) m).
Proof.
  intros Hrow Hl Hk.
  split; [|split; [|split]].
  - rewrite (data_display_cell _ _ m row 0 k r ColID) by done. cbn.
    by rewrite set_records_same.
  - rewrite (data_display_cell _ _ m row 1 k r ColTimeCreated) by done. cbn.
    by rewrite set_records_same.
  - rewrite (data_display_cell _ _ m row 5 k r ColData) by done. cbn.
    by rewrite set_records_same.
  - intros column Hc.
    assert (column = 2 \/ column = 3 \/ column = 4) as [-> | [-> | ->]] by lia.
    + rewrite (data_display_cell _ _ m row 2 k r ColProvider) by done.
      cbn [snd]. rewrite column_get_state; [done | tauto].
    + rewrite (data_display_cell _ _ m row 3 k r ColEventID) by done.
      cbn [snd]. rewrite column_get_state; [done | tauto].
    + rewrite (data_display_cell _ _ m row 4 k r ColLevel) by done.
      cbn [snd]. rewrite column_get_state; [done | tauto].
Qed.

Lemma data_cells_and_their_effect_witness :
  let m := load_data [level6_record; sample_record] (EvtxViewModel_new "System.evtx") in
  EvtxViewModel_data sample_XML sample_int 0 5 DisplayRole m
  = (Ok (CStr (data sample_record)), m)
  /\ (EvtxViewModel_data sample_XML sample_int 0 5 DisplayRole
        (EvtxViewModel_data sample_XML sample_int 0 2 DisplayRole m).2).1
     = Ok (CStr (event_text "7036" "4" "")).
Proof.
  intros m.
  destruct (data_cells_and_their_effect sample_XML sample_int m 0 1
              (EventRecord_init sample_record)) as (_ & _ & Hdata & Hparse);
    [lia | reflexivity | reflexivity |].
  split; [exact Hdata|].
  rewrite (Hparse 2) by lia.
  destruct (data_cells_and_their_effect sample_XML sample_int
              (set_records
                 (<[1 := (parse_data sample_XML (EventRecord_init sample_record)).2]>
                    (m_records m)) m)
              0 1 (parse_data sample_XML (EventRecord_init sample_record)).2)
    as (_ & _ & -> & _); [lia | reflexivity | reflexivity |].
  reflexivity.
Defined.

(** ** EvtxView: the row that is found, highlighted and clicked *)

Lemma index_at_first (x : Z) (l : list Z) : forall i row,
  Py_list.index_at x l i = Ok row ->
  i <= row /\ l !! Z.to_nat (row - i) = Some x /\
  (forall j, (j < Z.to_nat (row - i))%nat -> l !! j <> Some x).
Proof.
  induction l as [|y l IH]; intros i row H; [done|].
  cbn [Py_list.index_at] in H. destruct (Z.eqb_spec x y) as [->|Hne].
  - injection H as <-. rewrite Z.sub_diag. split; [lia|]. split; [done|].
    intros j Hj. cbn in Hj. lia.
  - destruct (IH _ _ H) as (Hle & Hl & Hmin).
    replace (Z.to_nat (row - i)) with (S (Z.to_nat (row - (i + 1)))) by lia.
    split; [lia|]. split; [done|].
    intros [|j] Hj; [cbn; congruence|]. apply Hmin. lia.
Qed.

(** X14. When the id occurs in the id sequence, [scroll_to_record_id] prints
    nothing, finds the first row that has the id, makes it the current
    one and highlights it; the records and the id sequence are left as
    they are, and afterwards [data] returns the highlight brush for the
    cells of that row and of no other row. *)
Theorem scroll_highlights_first_row
    (etree_XML : string -> result Node) (py_int : string -> result Z)
    (v : EvtxView) (record_id : Z) :
  record_id ∈ m_record_ids (v_model v) ->
  exists row,
    let v' := (scroll_to_record_id record_id v).2 in
    (scroll_to_record_id record_id v).1 = None
    /\ 0 <= row
    /\ m_record_ids (v_model v) !! Z.to_nat row = Some record_id
    /\ (forall j, (j < Z.to_nat row)%nat ->
          m_record_ids (v_model v) !! j <> Some record_id)
    /\ m_highlighted_row (v_model v') = Some row
    /\ v_current_index v' = Some (row, 0)
    /\ m_records (v_model v') = m_records (v_model v)
    /\ m_record_ids (v_model v') = m_record_ids (v_model v)
    /\ (forall row' column, 0 <= row' -> 0 <= column ->
          (EvtxViewModel_data etree_XML py_int row' column BackgroundRole
             (v_model v')).1
          = Ok (if decide (row' = row) then CBrush else QVariant_invalid)).
Proof.
  intros Hin. destruct (index_at_found record_id _ 0 Hin) as (row & Hrow & Hle & _).
  destruct (index_at_first _ _ _ _ Hrow) as (_ & Hl & Hmin).
  rewrite Z.sub_0_r in Hl, Hmin. exists row. cbn zeta.
  unfold scroll_to_record_id, get_evtxViewModel, Py_list.index. rewrite Hrow.
  unfold index_isValid. rewrite (proj2 (Z.leb_le 0 row)) by done. cbn.
  repeat (split; [done|]).
  intros row' column Hr Hc. unfold EvtxViewModel_data, index_isValid.
  rewrite (proj2 (Z.leb_le 0 row')), (proj2 (Z.leb_le 0 column)) by done.
  cbn. repeat case_decide; simplify_eq; done.
Qed.

Lemma scroll_highlights_first_row_witness :
  let v := {| v_model := load_data [first_seven; sample_record; second_seven]
                           (EvtxViewModel_new "System.evtx");
              v_highlighted_row := None; v_current_index := None |} in
  m_highlighted_row (v_model (scroll_to_record_id 7 v).2) = Some 1.
Proof.
  intros v.
  destruct (scroll_highlights_first_row sample_XML sample_int v 7)
    as (row & _ & _ & _ & Hmin & Hhl & _).
  - apply (bool_decide_unpack _). vm_compute. exact I.
  - pose proof Hhl as Hrow. vm_compute in Hrow. injection Hrow as <-. exact Hhl.
Defined.

Lemma data_column_is_the_sixth : data_column_index_from columns 0 = Some 5.
Proof. reflexivity. Qed.

(** X15. A double click on a cell outside the [Data] column shows nothing and
    raises nothing, wherever the row is; a double click on the [Data] cell
    of a row of the table shows the id of that row in the title of the
    message box and, as its text, the text the record of that row
    currently stores. *)
Theorem on_table_clicked_shows_data (v : EvtxView) (row column : Z) :
  (column <> 5 -> on_table_clicked row column v = Ok None)
  /\ (forall k r,
        0 <= row ->
        m_record_ids (v_model v) !! Z.to_nat row = Some k ->
        m_records (v_model v) !! k = Some r ->
        exists shown,
          on_table_clicked row 5 v = Ok (Some shown)
          /\ box_title shown = "Event Data for Event with Record id: " +:+ pretty k
          /\ box_text shown = r_data r)
  /\ (rowCount (v_model v) <= row ->
      on_table_clicked row 5 v = Raise IndexError).
Proof.
  unfold on_table_clicked. rewrite data_column_is_the_sixth. cbn zeta.
  split; [|split].
  - intros Hc. case_decide; [congruence | done].
  - intros k r Hrow Hl Hk. rewrite decide_True by done.
    rewrite (getitem_lookup _ _ _ Hrow Hl). unfold dict_getitem. rewrite Hk.
    eexists. split; [reflexivity|]. done.
  - intros Hrow. rewrite decide_True by done. unfold rowCount in Hrow.
    by rewrite getitem_beyond.
Qed.

Lemma on_table_clicked_shows_data_witness :
  let v := {| v_model := load_data [level6_record; sample_record]
                           (EvtxViewModel_new "System.evtx");
              v_highlighted_row := None; v_current_index := None |} in
  exists shown,
    on_table_clicked 1 5 v = Ok (Some shown)
    /\ box_title shown = "Event Data for Event with Record id: 2"
    /\ box_text shown = data level6_record.
Proof.
  intros v.
  destruct (on_table_clicked_shows_data v 1 5) as (_ & Hshow & _).
  apply (Hshow 2 (EventRecord_init level6_record)); [lia | reflexivity | reflexivity].
Defined.

(** ** The search loop: what it leaves alone, and an empty [EventID] *)

Lemma kept_refl r : kept r r.
Proof. split; [done|]. split; [done | by exists ""]. Qed.

Lemma kept_trans r1 r2 r3 : kept r1 r2 -> kept r2 r3 -> kept r1 r3.
Proof.
  intros (Hi & Ht & Hd) (Hi' & Ht' & Hd').
  split; [congruence|]. split; [congruence|]. by eapply string_suffix_trans.
Qed.

Lemma parse_data_kept etree_XML r : kept r (parse_data etree_XML r).2.
Proof.
  destruct (parse_data_frame etree_XML r) as (Hi & Ht & _ & Hd & _).
  split; [done|]. split; [done|]. rewrite Hd.
  destruct (r_parsed r); [by exists "" | apply remove_pi_suffix].
Qed.

Lemma search_visit_kept etree_XML text checked found r :
  kept r (search_visit etree_XML text checked found r).2.
Proof.
  pose proof (parse_data_kept etree_XML r) as H1.
  pose proof (parse_data_kept etree_XML (parse_data etree_XML r).2) as H2.
  pose proof (kept_trans _ _ _ H1 H2) as H12.
  pose proof (read_field_state etree_XML (fun _ => Raise ValueError) FProvider r) as Hp.
  pose proof (read_field_state etree_XML (fun _ => Raise ValueError) FEventID
                (parse_data etree_XML r).2) as He.
  cbn [read_field] in Hp, He.
  set (q1 := (parse_data etree_XML r).2) in *.
  set (q2 := (parse_data etree_XML q1).2) in *.
  clearbody q2. clearbody q1. clear H2.
  unfold search_visit, search_condition, bind, lift, ret,
    EventRecord_id, EventRecord_timestamp, EventRecord_data.
  destruct (EventRecord_Provider etree_XML r) as [[p|?] r1]; cbn [snd] in Hp;
    subst r1; [|done].
  destruct (py_in text p) as [[|]|]; [done| |done].
  destruct (EventRecord_EventID etree_XML q1) as [[e|?] r2]; cbn [snd] in He;
    subst r2; [|done].
  destruct (py_in text e) as [[|]|]; [done| |done].
  destruct checked; [|done]. by destruct (Py_str.contains text _).
Qed.

Lemma records_kept_refl recs : records_kept recs recs.
Proof. intros k. destruct (recs !! k); [apply kept_refl | done]. Qed.

Lemma records_kept_trans a b c :
  records_kept a b -> records_kept b c -> records_kept a c.
Proof.
  intros Hab Hbc k. specialize (Hab k). specialize (Hbc k).
  destruct (a !! k), (b !! k), (c !! k); try done. by eapply kept_trans.
Qed.

Lemma search_loop_kept etree_XML text checked refs : forall found m,
  let m' := (search_loop etree_XML text checked refs found m).2 in
  records_kept (m_records m) (m_records m')
  /\ m_record_ids m' = m_record_ids m /\ m_filename m' = m_filename m
  /\ m_chunks m' = m_chunks m /\ m_highlighted_row m' = m_highlighted_row m.
Proof.
  induction refs as [|rid refs IH]; intros found m; cbn zeta.
  - cbn. split; [apply records_kept_refl | done].
  - cbn [search_loop]. unfold bind, with_record.
    destruct (m_records m !! rid) as [r|] eqn:Hr;
      [|cbn; split; [apply records_kept_refl | done]].
    pose proof (search_visit_kept etree_XML text checked found r) as Hk.
    destruct (search_visit etree_XML text checked found r) as [[found'|e] r'];
      cbn [snd] in Hk.
    + destruct (IH found' (set_records (<[rid:=r']> (m_records m)) m))
        as (Hrec & -> & -> & -> & ->).
      split; [|done]. eapply records_kept_trans; [|exact Hrec].
      intros k. cbn. rewrite lookup_insert. case_decide as Hd.
      * subst k. by rewrite Hr.
      * destruct (m_records m !! k); [apply kept_refl | done].
    + cbn. split; [|done]. intros k. rewrite lookup_insert. case_decide as Hd.
      * subst k. by rewrite Hr.
      * destruct (m_records m !! k); [apply kept_refl | done].
Qed.

(** X16. Whether it returns or raises, the search leaves the rows of the table
    as they are: the id sequence does not change, the dict keeps its keys,
    and every record keeps its id and its timestamp; the only thing a
    record can lose is a leading part of its stored text. *)
Theorem search_keeps_the_table
    (etree_XML : string -> result Node) (text : string) (checked : bool)
    (m : EvtxViewModel) :
  let m' := (search_records etree_XML text checked m).2 in
  records_kept (m_records m) (m_records m')
  /\ m_record_ids m' = m_record_ids m /\ m_filename m' = m_filename m
  /\ m_chunks m' = m_chunks m /\ m_highlighted_row m' = m_highlighted_row m.
Proof.
  cbn zeta. unfold search_records, bind, get, lift.
  destruct (get_records m); [|split; [apply records_kept_refl | done]].
  apply search_loop_kept.
Qed.



(** ** Navigation: where the clicks lead and what they show *)

Lemma getitem_Ok_lookup {A} (l : list A) (i : Z) (a : A) :
  0 <= i -> Py_list.getitem l i = Ok a -> l !! Z.to_nat i = Some a.
Proof.
  intros Hi. unfold Py_list.getitem. cbn zeta.
  rewrite !(proj2 (Z.ltb_ge i 0)) by lia. cbn.
  destruct (_ <=? _); [done|]. destruct (l !! Z.to_nat i); [|done].
  by intros [= ->].
Qed.

Lemma click_effect (a : nat) (w : MainWindow) (b : Button) (v : EvtxView) :
  navigable a w -> views w !! a = Some v ->
  let next := next_position b (Z.of_nat (length (found w))) (cur_search_index w) in
  exists entry w',
    click b w = (Ok tt, w')
    /\ navigable a w'
    /\ 0 <= next < Z.of_nat (length (found w))
    /\ found w !! Z.to_nat next = Some entry
    /\ found w' = found w
    /\ cur_search_index w' = next
    /\ search_msgbox w' = Some (search_text w')
    /\ views w' = <[a := (scroll_to_record_id (fst entry) v).2]> (views w)
    /\ console w' = console w ++ (match (scroll_to_record_id (fst entry) v).1 with
                                  | Some line => [line]
                                  | None => []
                                  end)
    /\ files w' = files w /\ tab_widget w' = tab_widget w.
Proof.
  intros (Hne & Ha & Hv & Hbox & Hrange) Hview. cbn zeta.
  set (n := Z.of_nat (length (found w))) in *.
  set (next := next_position b n (cur_search_index w)).
  assert (0 <= next < n) as Hnext.
  { subst next. unfold next_position.
    destruct b; [destruct (Z.eqb_spec (cur_search_index w) 0)
                | destruct (Z.eqb_spec (cur_search_index w) (n - 1))]; lia. }
  set (w1 := set_cur_search_index next w).
  assert (exists entry, Py_list.getitem (found w1) (cur_search_index w1) = Ok entry)
    as [entry Hentry] by (apply getitem_in_range; done).
  destruct Hbox as [box Hbox].
  assert (click b w
          = (let* w := get in
             let* entry := lift (Py_list.getitem (found w) (cur_search_index w)) in
             scroll_current_view (fst entry) ;;;
             (fun w => match search_msgbox w with
                       | None => (Raise AttributeError, w)
                       | Some _ => (Ok tt, set_search_msgbox (search_text w) w)
                       end))%py w1) as ->.
  { unfold click, navigate_search, bind at 1. unfold w1, next, next_position.
    destruct b; cbn [direction_of Z.eqb Pos.eqb].
    - unfold bind at 1 2 3, get, put, ret.
      cbn [set_cur_search_index cur_search_index found].
      destruct (Z.ltb_spec (cur_search_index w - 1) 0),
               (Z.eqb_spec (cur_search_index w) 0); try lia; reflexivity.
    - unfold bind at 1 2 3 4, get, put, lift, py_mod.
      cbn [set_cur_search_index cur_search_index found]. fold n.
      rewrite (proj2 (Z.eqb_neq n 0)) by lia.
      destruct (Z.eqb_spec (cur_search_index w) (n - 1)) as [->|?].
      + replace (n - 1 + 1) with n by lia. by rewrite Z_mod_same_full.
      + by rewrite Z.mod_small by lia. }
  unfold bind, get, lift. rewrite Hentry. unfold scroll_current_view.
  cbn [w1 cur_evtx_view views set_cur_search_index]. rewrite Ha, Hview.
  apply getitem_Ok_lookup in Hentry; [|subst w1; cbn; lia]. cbn in Hentry.
  assert (is_Some (<[a:=(scroll_to_record_id entry.1 v).2]> (views w) !! a)) as Hs.
  { rewrite list_lookup_insert_eq; [by eexists|]. by eapply lookup_lt_Some. }
  exists entry.
  destruct (scroll_to_record_id entry.1 v) as [[line|] v']; cbn in *;
    rewrite Hbox; eexists; (split; [reflexivity|]); unfold navigable; cbn;
    rewrite ?app_nil_r; done.
Qed.

Lemma next_position_mod (b : Button) (n p : Z) :
  0 <= p < n -> next_position b n p = (p + direction_of b) mod n.
Proof.
  intros Hp. unfold next_position, direction_of. destruct b.
  - destruct (Z.eqb_spec p 0) as [->|?].
    + apply (Z.mod_unique_pos _ _ (-1)); lia.
    + by rewrite Z.mod_small by lia.
  - destruct (Z.eqb_spec p (n - 1)) as [->|?].
    + replace (n - 1 + 1) with n by lia. by rewrite Z_mod_same_full.
    + by rewrite Z.mod_small by lia.
Qed.

Lemma net_steps_cons (b : Button) (bs : list Button) :
  net_steps (b :: bs) = direction_of b + net_steps bs.
Proof. destruct b; cbn [net_steps direction_of]; lia. Qed.

Lemma clicks_effect (a : nat) (bs : list Button) : forall w,
  navigable a w -> search_msgbox w = Some (search_text w) ->
  exists w',
    clicks bs w = (Ok tt, w') /\ navigable a w' /\ found w' = found w
    /\ cur_search_index w'
       = (cur_search_index w + net_steps bs) mod Z.of_nat (length (found w))
    /\ search_msgbox w' = Some (search_text w').
Proof.
  induction bs as [|b bs IH]; intros w Hw Hbox.
  - exists w. pose proof Hw as (_ & _ & _ & _ & Hrange).
    cbn [clicks net_steps]. rewrite Z.add_0_r, Z.mod_small by done. done.
  - pose proof Hw as (_ & _ & [v Hv] & _ & Hrange).
    destruct (click_effect a w b v Hw Hv)
      as (entry & w1 & Hstep & Hw1 & _ & _ & Hf1 & Hc1 & Hb1 & _).
    destruct (IH w1 Hw1 Hb1) as (w2 & Hrest & Hw2 & Hf2 & Hc2 & Hb2).
    exists w2. cbn [clicks]. unfold bind. rewrite Hstep, Hrest.
    split; [done|]. split; [done|]. split; [congruence|]. split; [|done].
    rewrite Hc2, Hf1, Hc1, next_position_mod, net_steps_cons by done.
    rewrite Z.add_mod_idemp_l by lia. f_equal. lia.
Qed.

(** X19. From the state [display_search_results] sets up on [n] results, a
    sequence of clicks leads to the position that is the number of clicks
    on Next minus the number of clicks on Previous, taken modulo [n]; and
    the message box then reads "Found: n, Current: p" with [p] that
    position plus one. *)
Theorem clicks_lead_to_net_steps (w0 : MainWindow) (a : nat) (bs : list Button) :
  found w0 <> [] -> cur_evtx_view w0 = Some a -> is_Some (views w0 !! a) ->
  let n := Z.of_nat (length (found w0)) in
  exists w,
    clicks bs (display_search_results w0) = (Ok tt, w)
    /\ cur_search_index w = net_steps bs mod n
    /\ search_msgbox w
       = Some ("Found: " +:+ pretty n +:+ ", Current: "
               +:+ pretty (net_steps bs mod n + 1)).
Proof.
  intros Hne Ha Hv n.
  destruct (display_search_results_navigable a w0 Hne Ha Hv) as (Hnav & Hf & Hc).
  destruct (clicks_effect a bs (display_search_results w0) Hnav eq_refl)
    as (w & Hrun & _ & Hfw & Hcw & Hbw).
  rewrite Hf, Hc, Z.add_0_l in Hcw. fold n in Hcw.
  exists w. split; [done|]. split; [done|].
  rewrite Hbw. unfold search_text. by rewrite Hfw, Hf, Hcw.
Qed.

Lemma clicks_lead_to_net_steps_witness :
  exists w,
    clicks [Previous; Previous; Previous; Next] (display_search_results searched)
    = (Ok tt, w)
    /\ cur_search_index w = 0
    /\ search_msgbox w = Some "Found: 2, Current: 1".
Proof.
  destruct (clicks_lead_to_net_steps searched 0%nat [Previous; Previous; Previous; Next])
    as (w & Hrun & Hc & Hbox); [discriminate | reflexivity | by eexists |].
  exists w. split; [done|]. split; [exact Hc | exact Hbox].
Defined.

Lemma scroll_to_found (v : EvtxView) (record_id : Z) :
  record_id ∈ m_record_ids (v_model v) ->
  exists row,
    0 <= row
    /\ m_record_ids (v_model v) !! Z.to_nat row = Some record_id
    /\ scroll_to_record_id record_id v
       = (None, {| v_model := set_highlighted_row (Some row) (v_model v);
                   v_highlighted_row := v_highlighted_row v;
                   v_current_index := Some (row, 0) |}).
Proof.
  intros Hin. destruct (index_at_found record_id _ 0 Hin) as (row & Hrow & Hle & Hl).
  rewrite Z.sub_0_r in Hl. exists row. split; [done|]. split; [done|].
  unfold scroll_to_record_id, get_evtxViewModel, Py_list.index. rewrite Hrow.
  unfold index_isValid. by rewrite (proj2 (Z.leb_le 0 row)) by done.
Qed.

(** X20. When the ids of the results occur in the view the search was made
    on, a click on Previous or Next highlights, in that view, a row that
    has the id of the result at the new position, and prints nothing. *)
Theorem click_highlights_current_result (a : nat) (w : MainWindow) (b : Button)
    (v : EvtxView) :
  navigable a w -> views w !! a = Some v ->
  (forall entry, entry ∈ found w -> entry.1 ∈ m_record_ids (v_model v)) ->
  exists w' entry row v',
    click b w = (Ok tt, w')
    /\ found w' !! Z.to_nat (cur_search_index w') = Some entry
    /\ views w' !! a = Some v'
    /\ 0 <= row
    /\ m_highlighted_row (v_model v') = Some row
    /\ m_record_ids (v_model v') !! Z.to_nat row = Some entry.1
    /\ console w' = console w.
Proof.
  intros Hw Hv Hids.
  destruct (click_effect a w b v Hw Hv)
    as (entry & w' & Hstep & _ & _ & Hentry & Hf & Hc & _ & Hviews & Hcons & _).
  destruct (scroll_to_found v entry.1) as (row & Hrow & Hl & Hscroll).
  { apply Hids. by eapply list_elem_of_lookup_2. }
  rewrite Hscroll in Hviews, Hcons. cbn in Hviews, Hcons.
  exists w', entry, row. eexists. split; [done|].
  split; [by rewrite Hf, Hc|]. split.
  { rewrite Hviews. apply list_lookup_insert_eq. by eapply lookup_lt_Some. }
  cbn. rewrite app_nil_r in Hcons. done.
Qed.

Lemma click_highlights_current_result_witness :
  exists w' v',
    click Next (display_search_results searched) = (Ok tt, w')
    /\ views w' !! 0%nat = Some v'
    /\ m_highlighted_row (v_model v') = Some 1.
Proof.
  destruct (views (display_search_results searched) !! 0%nat) as [v|] eqn:Hv;
    [|vm_compute in Hv; discriminate].
  destruct (click_highlights_current_result 0%nat (display_search_results searched)
              Next v) as (w' & entry & row & v' & Hstep & He & Hv' & _ & Hhl & Hl & _).
  - apply (display_search_results_navigable 0%nat searched);
      [discriminate | reflexivity | by eexists].
  - exact Hv.
  - vm_compute in Hv. injection Hv as <-. intros entry Hin.
    apply elem_of_cons in Hin as [->|Hin]; [apply (bool_decide_unpack _); by vm_compute|].
    apply list_elem_of_singleton in Hin as ->.
    apply (bool_decide_unpack _). by vm_compute.
  - exists w', v'. split; [done|]. split; [done|].
    rewrite Hhl. f_equal.
    pose proof Hstep as Hw'. vm_compute in Hw'. injection Hw' as <-.
    vm_compute in Hv'. injection Hv' as <-. vm_compute in Hhl. by injection Hhl.
Defined.

(** ** Tabs: opening without closing, and what closing does to the map *)

Section Tabs_facts.

Variable PyEvtxParser_records : string -> result (list RawRecord).
Variable Path_name : string -> string.

Lemma tab_file_more_views (w : MainWindow) (t : Tab) (f : string) (vs : list EvtxView)
    (w' : MainWindow) :
  views w' = views w ++ vs -> tab_file w t = Some f -> tab_file w' t = Some f.
Proof.
  unfold tab_file. intros ->. destruct (views w !! tab_view t) as [v|] eqn:Hv; [|done].
  by rewrite (lookup_app_l_Some _ _ _ _ Hv).
Qed.

Lemma open_file_new (w : MainWindow) (filename : string) (parsed : list RawRecord) :
  files w !! filename = None -> PyEvtxParser_records filename = Ok parsed ->
  let count := tab_count (tab_widget w) in
  let view := {| v_model := load_data parsed (EvtxViewModel_new filename);
                 v_highlighted_row := None; v_current_index := None |} in
  exists w',
    open_file PyEvtxParser_records Path_name filename w = (Ok tt, w')
    /\ files w' = <[filename := count]> (files w)
    /\ views w' = (views w ++ [view])
    /\ tabs (tab_widget w')
       = (tabs (tab_widget w)
          ++ [{| tab_label := Path_name filename; tab_view := length (views w) |}])
    /\ currentIndex (tab_widget w') = count.
Proof.
  intros Hf Hp. cbn zeta. unfold open_file, EvtxView_init, EvtxViewModel_init.
  rewrite Hf, Hp. unfold addTab. cbn -[load_data].
  assert ((tab_count (tab_widget w) =? -1) = false) as ->
    by (apply Z.eqb_neq; unfold tab_count; lia).
  eexists. split; [reflexivity|]. unfold setCurrentIndex, valid_tab, tab_count.
  cbn -[load_data]. rewrite length_app. cbn [length].
  rewrite (proj2 (Z.leb_le 0 _)), (proj2 (Z.ltb_lt _ _)) by lia. done.
Qed.

Lemma open_file_keeps_pointing (w : MainWindow) (filename : string) :
  files_point_at_tabs w ->
  files_point_at_tabs (open_file PyEvtxParser_records Path_name filename w).2.
Proof.
  intros Hw. destruct (files w !! filename) as [index|] eqn:Hf.
  - unfold open_file. rewrite Hf. destruct (index =? -1); [done|].
    intros f i Hfi. cbn in Hfi. destruct (Hw f i Hfi) as (Hi & t & Ht & Hfile).
    split; [done|]. exists t. split; [|done]. cbn. unfold setCurrentIndex.
    by destruct (valid_tab _ _).
  - destruct (PyEvtxParser_records filename) as [parsed|e] eqn:Hp.
    + destruct (open_file_new w filename parsed Hf Hp)
        as (w' & -> & Hfiles & Hviews & Htabs & _). cbn [snd].
      intros f i Hfi. rewrite Hfiles, lookup_insert in Hfi. case_decide as Hd.
      * injection Hfi as <-. subst f. unfold tab_count.
        split; [lia|]. eexists. rewrite Htabs, Nat2Z.id. split.
        { rewrite list_lookup_middle; [reflexivity | done]. }
        unfold tab_file. cbn [tab_view]. rewrite Hviews.
        rewrite list_lookup_middle by done. cbn [v_model].
        by destruct (load_data_rest parsed (EvtxViewModel_new filename)) as (-> & _).
      * destruct (Hw f i Hfi) as (Hi & t & Ht & Hfile). split; [done|].
        exists t. rewrite Htabs. split; [by apply lookup_app_l_Some|].
        by eapply tab_file_more_views.
    + unfold open_file, EvtxView_init, EvtxViewModel_init. by rewrite Hf, Hp.
Qed.

Lemma open_files_point_at_tabs (fs : list string) : forall w,
  files_point_at_tabs w ->
  files_point_at_tabs (open_files PyEvtxParser_records Path_name fs w).
Proof.
  induction fs as [|f fs IH]; intros w Hw; [done|].
  cbn [open_files]. by apply IH, open_file_keeps_pointing.
Qed.

Lemma reopen_pointing (w : MainWindow) (filename : string) (index : Z) :
  files_point_at_tabs w -> files w !! filename = Some index ->
  exists w',
    open_file PyEvtxParser_records Path_name filename w = (Ok tt, w')
    /\ current_file w' = Some filename
    /\ files w' = files w
    /\ tabs (tab_widget w') = tabs (tab_widget w).
Proof.
  intros Hw Hf. destruct (Hw _ _ Hf) as (Hi & t & Ht & Hfile).
  unfold open_file. rewrite Hf.
  rewrite (proj2 (Z.eqb_neq index (-1))) by lia.
  eexists. split; [reflexivity|].
  assert (valid_tab (tab_widget w) index = true) as Hvalid.
  { unfold valid_tab, tab_count. apply lookup_lt_Some in Ht.
    rewrite (proj2 (Z.leb_le 0 _)), (proj2 (Z.ltb_lt _ _)) by lia. done. }
  unfold setCurrentIndex. rewrite Hvalid. cbn. split; [|done].
  unfold current_file, currentWidget. cbn. unfold valid_tab, tab_count in *.
  cbn. rewrite Hvalid, Ht. exact Hfile.
Qed.

End Tabs_facts.

(** X21. As long as no tab has been closed, opening a file that is already
    open selects the tab that shows it: after any sequence of calls of
    [open_file] on a fresh window, a further call for a file of the map
    returns, leaves the map and the pages as they are, and makes the page
    of that file the current one. *)
Theorem reopen_without_close_selects_the_file
    (PyEvtxParser_records : string -> result (list RawRecord))
    (Path_name : string -> string) (fs : list string) (filename : string) :
  let w := open_files PyEvtxParser_records Path_name fs MainWindow_init in
  is_Some (files w !! filename) ->
  exists w',
    open_file PyEvtxParser_records Path_name filename w = (Ok tt, w')
    /\ current_file w' = Some filename
    /\ files w' = files w
    /\ tabs (tab_widget w') = tabs (tab_widget w).
Proof.
  intros w [index Hf]. apply (reopen_pointing _ _ w filename index); [|done].
  apply open_files_point_at_tabs. intros f i Hfi. cbn in Hfi.
  by rewrite lookup_empty in Hfi.
Qed.

Lemma reopen_without_close_selects_the_file_witness :
  exists w',
    open_file sample_parser sample_name security_evtx three_opened = (Ok tt, w')
    /\ current_file w' = Some security_evtx.
Proof.
  destruct (reopen_without_close_selects_the_file sample_parser sample_name
              [system_evtx; security_evtx; application_evtx] security_evtx)
    as (w' & Hopen & Hcur & _).
  - vm_compute. by eexists.
  - exists w'. split; [exact Hopen | exact Hcur].
Defined.

(** X22. Opening a file that is not open yet and that the parser can read adds
    one page behind the existing ones, makes it the current page, records
    its index in the map and leaves every other entry of the map alone;
    the page shows the model loaded from that file. *)
Theorem open_file_adds_a_tab
    (PyEvtxParser_records : string -> result (list RawRecord))
    (Path_name : string -> string)
    (w : MainWindow) (filename : string) (parsed : list RawRecord) :
  files w !! filename = None -> PyEvtxParser_records filename = Ok parsed ->
  exists w' t v,
    open_file PyEvtxParser_records Path_name filename w = (Ok tt, w')
    /\ tabs (tab_widget w') = (tabs (tab_widget w) ++ [t])
    /\ tab_label t = Path_name filename
    /\ views w' !! tab_view t = Some v
    /\ v_model v = load_data parsed (EvtxViewModel_new filename)
    /\ currentIndex (tab_widget w') = tab_count (tab_widget w)
    /\ files w' !! filename = Some (tab_count (tab_widget w))
    /\ (forall f, f <> filename -> files w' !! f = files w !! f).
Proof.
  intros Hf Hp.
  destruct (open_file_new PyEvtxParser_records Path_name w filename parsed Hf Hp)
    as (w' & Hopen & Hfiles & Hviews & Htabs & Hcur).
  exists w'. do 2 eexists. split; [done|]. split; [exact Htabs|]. cbn.
  split; [done|]. split.
  { rewrite Hviews. by apply list_lookup_middle. }
  split; [done|]. split; [done|]. rewrite Hfiles. split.
  - apply lookup_insert_eq.
  - intros f Hne. by rewrite lookup_insert_ne.
Qed.

Lemma open_file_adds_a_tab_witness :
  exists w' t,
    open_file sample_parser sample_name security_evtx
      (open_file sample_parser sample_name system_evtx MainWindow_init).2
    = (Ok tt, w')
    /\ tabs (tab_widget w')
       = ([{| tab_label := "System.evtx"; tab_view := 0 |}] ++ [t])
    /\ tab_label t = "Security.evtx"
    /\ files w' !! security_evtx = Some 1.
Proof.
  destruct (open_file_adds_a_tab sample_parser sample_name
              (open_file sample_parser sample_name system_evtx MainWindow_init).2
              security_evtx [note_record] eq_refl eq_refl)
    as (w' & t & v & Hopen & Htabs & Hlabel & _ & _ & _ & Hfile & _).
  exists w', t. split; [done|]. split; [exact Htabs|]. split; [exact Hlabel|].
  exact Hfile.
Defined.

(** X23. [close_tab] removes from the map exactly the entries that hold the
    closed index and keeps every other entry with the index it had; when
    a page has the index, that page is removed and the pages behind it
    move one place down, so that their entries no longer hold their
    position. *)
Theorem close_tab_keeps_other_indices (w : MainWindow) (index : Z) :
  (forall f i, files (close_tab index w) !! f = Some i
               <-> files w !! f = Some i /\ i <> index)
  /\ views (close_tab index w) = views w
  /\ (valid_tab (tab_widget w) index = true ->
      forall j : nat,
        tabs (tab_widget (close_tab index w)) !! j
        = if decide (j < Z.to_nat index)%nat
          then tabs (tab_widget w) !! j
          else tabs (tab_widget w) !! S j)
  /\ (valid_tab (tab_widget w) index = false ->
      tab_widget (close_tab index w) = tab_widget w).
Proof.
  unfold close_tab. cbn. split; [|split; [done|split]].
  - intros f i. rewrite map_lookup_filter_Some. cbn. done.
  - intros Hvalid j. unfold removeTab. rewrite Hvalid. cbn. case_decide.
    + by apply list_lookup_delete_lt.
    + apply list_lookup_delete_ge. lia.
  - intros Hvalid. unfold removeTab. by rewrite Hvalid.
Qed.

Lemma close_tab_keeps_other_indices_witness :
  files first_closed !! security_evtx = Some 1
  /\ tabs (tab_widget first_closed) !! 0%nat
     = Some {| tab_label := "Security.evtx"; tab_view := 1 |}.
Proof.
  destruct (close_tab_keeps_other_indices three_opened 0) as (Hfiles & _ & Htabs & _).
  split.
  - apply Hfiles. split; [reflexivity | discriminate].
  - unfold first_closed. rewrite (Htabs eq_refl 0%nat). reflexivity.
Defined.

(** ** The search: its results are rows, and it opens the navigation *)

Lemma search_visit_result etree_XML text checked found r found' :
  (search_visit etree_XML text checked found r).1 = Ok found' ->
  found' = found \/ found' = found ++ [found_entry r].
Proof.
  pose proof (parse_data_kept etree_XML r) as H1.
  pose proof (parse_data_kept etree_XML (parse_data etree_XML r).2) as H2.
  pose proof (kept_trans _ _ _ H1 H2) as H12.
  pose proof (read_field_state etree_XML (fun _ => Raise ValueError) FProvider r) as Hp.
  pose proof (read_field_state etree_XML (fun _ => Raise ValueError) FEventID
                (parse_data etree_XML r).2) as He.
  cbn [read_field] in Hp, He.
  set (q1 := (parse_data etree_XML r).2) in *.
  set (q2 := (parse_data etree_XML q1).2) in *.
  clearbody q2. clearbody q1. clear H2.
  destruct H1 as (Hi1 & Ht1 & _), H12 as (Hi2 & Ht2 & _).
  unfold search_visit, search_condition, bind, lift, ret, found_entry,
    EventRecord_id, EventRecord_timestamp, EventRecord_data.
  destruct (EventRecord_Provider etree_XML r) as [[p|?] r1]; cbn [snd] in Hp;
    subst r1; [|done].
  destruct (py_in text p) as [[|]|]; [| |done].
  { cbn. intros [= <-]. right. by rewrite Hi1, Ht1. }
  destruct (EventRecord_EventID etree_XML q1) as [[e|?] r2]; cbn [snd] in He;
    subst r2; [|done].
  destruct (py_in text e) as [[|]|]; [| |done].
  { cbn. intros [= <-]. right. by rewrite Hi2, Ht2. }
  destruct checked; [|cbn; intros [= <-]; by left].
  destruct (Py_str.contains text _); cbn; intros [= <-];
    [right; by rewrite Hi2, Ht2 | by left].
Qed.

Lemma search_loop_results etree_XML text checked refs : forall found m found',
  keyed m ->
  (search_loop etree_XML text checked refs found m).1 = Ok found' ->
  forall entry, entry ∈ found' ->
    entry ∈ found \/
    (entry.1 ∈ refs /\
     exists r, m_records m !! entry.1 = Some r /\ entry = found_entry r).
Proof.
  induction refs as [|rid refs IH]; intros found m found' Hkeyed H entry Hin.
  - cbn in H. injection H as <-. by left.
  - cbn [search_loop] in H. unfold bind, with_record in H.
    destruct (m_records m !! rid) as [r|] eqn:Hr; [|done].
    pose proof (search_visit_kept etree_XML text checked found r) as Hk.
    pose proof (search_visit_result etree_XML text checked found r) as Hres.
    destruct (search_visit etree_XML text checked found r) as [[found1|e] r'];
      [|done].
    cbn [snd] in Hk. specialize (Hres found1 eq_refl).
    assert (found_entry r' = found_entry r) as Hentry
      by (destruct Hk as (Hi & Ht & _); unfold found_entry; by rewrite Hi, Ht).
    destruct (IH found1 (set_records (<[rid:=r']> (m_records m)) m) found')
      with (entry := entry) as [Hold | (Href & r0 & Hr0 & He)]; [|done|done| |].
    + intros k x. cbn. rewrite lookup_insert. case_decide as Hd; [|apply Hkeyed].
      intros [= <-]. subst k. destruct Hk as (-> & _). by apply Hkeyed.
    + destruct Hres as [-> | ->]; [by left|].
      apply elem_of_app in Hold as [?|Hnew]; [by left|].
      apply list_elem_of_singleton in Hnew as ->. right.
      assert (r_id r = rid) as Hid by by apply Hkeyed.
      unfold found_entry at 1. cbn [fst]. rewrite Hid.
      split; [apply elem_of_cons; by left|]. exists r. split; [|done].
      unfold found_entry. cbn [fst]. by rewrite Hid.
    + right. split; [apply elem_of_cons; by right|].
      cbn in Hr0. rewrite lookup_insert in Hr0. case_decide as Hd.
      * injection Hr0 as <-. exists r. rewrite <- Hd, Hr. split; [done|].
        by rewrite He, Hentry.
      * by exists r0.
Qed.

(** X18. Whenever the search returns, every entry of its result is the id and
    the timestamp of a record of the table, and that id is in the id
    sequence. *)
Theorem search_results_are_rows
    (etree_XML : string -> result Node) (text : string) (checked : bool)
    (m : EvtxViewModel) (found : list (Z * string)) :
  keyed m ->
  (search_records etree_XML text checked m).1 = Ok found ->
  forall entry, entry ∈ found ->
    entry.1 ∈ m_record_ids m
    /\ exists r, m_records m !! entry.1 = Some r /\ entry = found_entry r.
Proof.
  intros Hkeyed H entry Hin. unfold search_records, bind, get, lift in H.
  destruct (get_records m); [|done].
  destruct (search_loop_results _ _ _ _ _ _ _ Hkeyed H entry Hin) as [Hnil | Hrow];
    [by apply elem_of_nil in Hnil | done].
Qed.

Lemma load_data_keyed (filename : string) (parsed : list RawRecord) :
  keyed (load_data parsed (EvtxViewModel_new filename)).
Proof. intros k r. rewrite load_data_records. apply loaded_id. Qed.

Lemma search_results_are_rows_witness :
  (1, "2024-05-01 10:00:00.000000 UTC").1
    ∈ m_record_ids
        (load_data [level6_record; sample_record] (EvtxViewModel_new "System.evtx")).
Proof.
  apply (search_results_are_rows sample_XML "4<" true
           (load_data [level6_record; sample_record] (EvtxViewModel_new "System.evtx"))
           [(1, "2024-05-01 10:00:00.000000 UTC")]).
  - apply load_data_keyed.
  - vm_compute. reflexivity.
  - apply elem_of_cons. by left.
Defined.

Lemma search_records_ids etree_XML text checked (m : EvtxViewModel) :
  m_record_ids (search_records etree_XML text checked m).2 = m_record_ids m.
Proof.
  unfold search_records, bind, get, lift. destruct (get_records m); [|done].
  by destruct (search_loop_kept etree_XML text checked (m_record_ids m) [] m)
    as (_ & -> & _).
Qed.

Lemma search_records_rows etree_XML text checked (m : EvtxViewModel) found entry :
  keyed m -> (search_records etree_XML text checked m).1 = Ok found ->
  entry ∈ found -> entry.1 ∈ m_record_ids m.
Proof.
  intros Hkeyed H Hin. unfold search_records, bind, get, lift in H.
  destruct (get_records m); [|done].
  destruct (search_loop_results _ _ _ _ _ _ _ Hkeyed H entry Hin) as [Hnil | [? _]];
    [by apply elem_of_nil in Hnil | done].
Qed.

(** X24. A search on the current tab that returns: when it found something,
    [action_search] shows no information box, stores the results, makes
    the view of the current tab the one the navigation acts on and opens
    the message box at the first result, so that the window is ready for
    Previous and Next, and every result has its id among the rows of that
    view; when it found nothing, it shows "Nothing found." and leaves the
    results and the position of an earlier search as they were. *)
Theorem action_search_opens_navigation
    (etree_XML : string -> result Node)
    (widget_repr : Tab -> string) (view_repr : nat -> string)
    (w : MainWindow) (text : string) (t : Tab) (v : EvtxView)
    (found_now : list (Z * string)) :
  files w <> ∅ -> text <> "" ->
  currentWidget (tab_widget w) = Some t -> views w !! tab_view t = Some v ->
  (search_records etree_XML text (searchInEVTData w) (v_model v)).1 = Ok found_now ->
  let out := action_search etree_XML widget_repr view_repr (text, true) w in
  exists v',
    views out.2 !! tab_view t = Some v'
    /\ m_record_ids (v_model v') = m_record_ids (v_model v)
    /\ files out.2 = files w /\ tab_widget out.2 = tab_widget w
    /\ (found_now <> [] ->
        out.1 = Ok None
        /\ navigable (tab_view t) out.2
        /\ found out.2 = found_now
        /\ cur_search_index out.2 = 0
        /\ search_msgbox out.2
           = Some ("Found: " +:+ pretty (Z.of_nat (length found_now))
                   +:+ ", Current: 1")
        /\ (keyed (v_model v) ->
            forall entry, entry ∈ found out.2 ->
                          entry.1 ∈ m_record_ids (v_model v')))
    /\ (found_now = [] ->
        out.1 = Ok (Some ("Search Results", "Nothing found."))
        /\ found out.2 = found w
        /\ cur_search_index out.2 = cur_search_index w
        /\ cur_evtx_view out.2 = cur_evtx_view w).
Proof.
  intros Hfiles Htext Ht Hv Hsearch. cbn zeta. unfold action_search.
  rewrite decide_False by done. rewrite bool_decide_false by done.
  cbn [andb negb]. rewrite Ht. cbn [print views searchInEVTData]. rewrite Hv.
  unfold get_evtxViewModel.
  pose proof (search_records_ids etree_XML text (searchInEVTData w) (v_model v)) as Hids.
  pose proof (search_records_rows etree_XML text (searchInEVTData w) (v_model v)
                found_now) as Hrows.
  destruct (search_records etree_XML text (searchInEVTData w) (v_model v))
    as [res model]. cbn [fst snd] in *. subst res.
  assert (tab_view t < length (views w))%nat as Hlt by by eapply lookup_lt_Some.
  exists (set_view_model model v).
  destruct found_now as [|entry rest]; cbn.
  - split; [by apply list_lookup_insert_eq|]. split; [done|].
    split; [done|]. split; [done|]. split; [done|]. done.
  - split; [by apply list_lookup_insert_eq|]. split; [done|].
    split; [done|]. split; [done|]. split; [|done]. intros _.
    split; [done|]. split.
    { unfold navigable. cbn. split; [done|]. split; [done|].
      split; [rewrite list_lookup_insert_eq by done; by eexists|].
      split; [by eexists | lia]. }
    split; [done|]. split; [done|]. split; [done|].
    intros Hkeyed e He. rewrite Hids. by apply Hrows.
Qed.

Lemma action_search_opens_navigation_witness :
  let out := action_search sample_XML sample_widget_repr sample_view_repr
               ("7036", true) one_opened in
  out.1 = Ok None
  /\ found out.2 = [(1, timestamp sample_record); (2, timestamp level6_record)]
  /\ cur_search_index out.2 = 0.
Proof.
  destruct (action_search_opens_navigation sample_XML sample_widget_repr
              sample_view_repr one_opened "7036"
              {| tab_label := "System.evtx"; tab_view := 0 |} system_view
              [(1, timestamp sample_record); (2, timestamp level6_record)])
    as (v' & _ & _ & _ & _ & Hfound & _).
  - intros H. apply (f_equal (fun m => m !! system_evtx)) in H. by vm_compute in H.
  - discriminate.
  - reflexivity.
  - reflexivity.
  - vm_compute. reflexivity.
  - destruct Hfound as (Hres & _ & Hf & Hc & _); [discriminate|].
    cbn zeta. split; [exact Hres|]. split; [exact Hf | exact Hc].
Defined.
